(** * entra-id-api-tester: a shallow embedding of the endpoint tester

    The Go program loads a list of endpoint definitions, and for each of
    them acquires a bearer token, issues one HTTP request and classifies
    the outcome.  This file embeds the packages [config], [auth], [client]
    and the [main] package, and proves properties of the test outcomes,
    of the run summary and of the exit status.

    Modelling conventions.
    - A Go [error] is its message; [nil] is [None].  [fmt.Errorf("p: %w", e)]
      and [fmt.Sprintf("p: %v", e)] are the prefix followed by the message.
    - A Go [int] is a [Z].  The counters of the summary are bounded by the
      length of a slice, so no wrap-around can occur on them.
    - Calls that leave the process (the token provider, the HTTP client, the
      clock, the file system) are functions of an abstract [World]; the
      program is written in a state monad over it.  The monad also records
      each collaborator call in a log, so that "which calls were made, in
      which order" can be stated.
    - Deadlines ([context.WithTimeout]) are real time: in the model their
      expiry is one of the errors a collaborator may return.
    - Console output is presentation only and is left out; [printSummary]
      returns the figures it prints. *)

From Stdlib Require Import ZArith QArith String Ascii List Lia DecimalString.
From stdpp Require Import base option list strings gmap.

Close Scope Q_scope.
Local Open Scope Z_scope.

(** ** Errors, bytes and formatting *)

(** A non-nil Go error, identified with the text of [err.Error()]. *)
Definition error : Type := string.

Definition bytes : Type := list Byte.byte.

(** The verb [%d] of package [fmt] on an [int]. *)
Definition fmt_d (n : Z) : string := NilZero.string_of_int (Z.to_int n).

(** [fmt.Errorf(prefix + "%w", err)] and [fmt.Sprintf(prefix + "%v", err)]. *)
Definition wrap (prefix : string) (err : error) : string := prefix +:+ err.

(** ** The run-time environment *)

(** What the program takes from the Go run time and does not define
    itself: the outside world, the dynamic values an [interface{}] may
    hold, the clock and [encoding/json]'s marshaller on
    [map[string]interface{}]. *)
Class Runtime := {
  World : Type;
  Value : Type;
  (** [time.Now()], in nanoseconds *)
  time_Now : World → Z * World;
  (** [json.Marshal] on a request body *)
  json_Marshal : gmap string Value → bytes + error
}.

(** ** The parts of [net/http] the program uses *)

Module http.

(** [http.Header] is [map[string][]string]. *)
Abbreviation Header := (gmap string (list string)).

Record Request := {
  ReqMethod : string;
  ReqURL : string;
  ReqHeader : Header;
  (** [nil] when the request was built without a body reader *)
  ReqBody : option bytes
}.

(** [http.Response], with the body stream replaced by what
    [io.ReadAll] makes of it. *)
Record Response := {
  StatusCode : Z;
  RespHeader : Header;
  Body : bytes + error
}.

(** [Header.Set(key, value)] replaces the values under [key].  The
    two keys the program sets, [Authorization] and [Content-Type], are in
    canonical form already, so the canonicalisation of [key] is the
    identity on them. *)
Definition Header_Set (h : Header) (key value : string) : Header :=
  <[key := [value]]> h.

Definition Request_SetHeader (r : Request) (key value : string) : Request :=
  {| ReqMethod := ReqMethod r; ReqURL := ReqURL r;
     ReqHeader := Header_Set (ReqHeader r) key value;
     ReqBody := ReqBody r |}.

(** [Header.Get(key)]: the first value under [key], or the empty string. *)
Definition Header_Get (h : Header) (key : string) : string :=
  match h !! key with
  | Some (v :: _) => v
  | _ => ""
  end.

(** The checks of [http.NewRequestWithContext] (a valid method token, a
    URL that parses) are the library's; [Some err] is its refusal. *)
Class Checker := requestError : string → string → option error.

(** [http.NewRequestWithContext(ctx, method, url, body)]: an empty method
    means GET; a request that passes the checks has an empty header map
    and the body it was given. *)
Definition NewRequestWithContext `{Checker}
    (method url : string) (body : option bytes) : Request + error :=
  let method := if decide (method = "") then "GET" else method in
  match requestError method url with
  | Some err => inr err
  | None => inl {| ReqMethod := method; ReqURL := url;
                   ReqHeader := ∅; ReqBody := body |}
  end.

(** [http.Client]: the standard client, whose [Do] is the network. *)
Record Client := { Timeout : Z }.

Class Network `{Runtime} :=
  Client_Do : Client → Request → World → (Response + error) * World.

End http.

(** ** The state monad of the program *)

(** A call that leaves the process. *)
Inductive Event : Type :=
| EvGetAccessToken (clientID clientSecret tenantID scope : string)
| EvDo (req : http.Request)
| EvOpen (filePath : string).

Section Monad.
Context `{Runtime}.

Record State := { world : World; calls : list Event }.

Definition M (A : Type) : Type := State → A * State.

#[global] Instance M_ret : MRet M := λ A x s, (x, s).
#[global] Instance M_bind : MBind M :=
  λ A B f m s, let '(a, s') := m s in f a s'.

(** Run [f] on the world and append [ev] to the log. *)
Definition external {A} (ev : Event) (f : World → A * World) : M A :=
  λ s, let '(a, w) := f (world s) in
       (a, {| world := w; calls := calls s ++ [ev] |}).

(** [time.Now()]: the clock is read, nothing is logged. *)
Definition timeNow : M Z :=
  λ s, let '(t, w) := time_Now (world s) in
       (t, {| world := w; calls := calls s |}).

Definition initial (w : World) : State := {| world := w; calls := [] |}.
End Monad.

(** ** Package [config] *)

Module config.
Section config.
Context `{Runtime}.

Record Endpoint := {
  Name : string;
  URL : string;
  Method : string;
  ClientID : string;
  ClientSecret : string;
  TenantID : string;
  Scope : string;
  (** [map[string]interface{}]; [None] is the nil map *)
  RequestBody : option (gmap string Value)
}.

Record Config := { Endpoints : list Endpoint }.

Definition validMethods : gmap string bool :=
  list_to_map [("GET", true); ("POST", true); ("PUT", true);
               ("PATCH", true); ("DELETE", true)].

(** [(e *Endpoint) Validate()] *)
Definition Endpoint_Validate (e : Endpoint) : option error :=
  if decide (Name e = "") then Some "name is required"
  else if decide (URL e = "") then Some "url is required"
  else if decide (Method e = "") then Some "method is required"
  else if negb (default false (validMethods !! Method e)) then
    Some ("invalid HTTP method: " +:+ Method e
          +:+ " (must be GET, POST, PUT, PATCH, or DELETE)")
  else if decide (ClientID e = "") then Some "clientId is required"
  else if decide (ClientSecret e = "") then Some "clientSecret is required"
  else if decide (TenantID e = "") then Some "tenantId is required"
  else if decide (Scope e = "") then Some "scope is required"
  else None.

(** The loop of [(c *Config) Validate()], from index [i] on. *)
Fixpoint validateFrom (i : Z) (es : list Endpoint) : option error :=
  match es with
  | [] => None
  | endpoint :: rest =>
      match Endpoint_Validate endpoint with
      | Some err =>
          Some (wrap ("endpoint " +:+ fmt_d i +:+ " (" +:+ Name endpoint
                      +:+ "): ") err)
      | None => validateFrom (i + 1) rest
      end
  end.

(** [(c *Config) Validate()] *)
Definition Config_Validate (c : Config) : option error :=
  if decide (length (Endpoints c) = 0%nat) then
    Some "no endpoints defined in configuration"
  else validateFrom 0 (Endpoints c).

(** The file system and the JSON decoder behind [LoadConfig]:
    [os_Open] gives the content of the file or the error of
    [os.Open]; [json_Decode] is [json.NewDecoder(file).Decode(&config)]. *)
Class Loader := {
  os_Open : string → World → (bytes + error) * World;
  json_Decode : bytes → Config + error
}.

(** [LoadConfig(filePath)] *)
Definition LoadConfig `{Loader} (filePath : string) : M (Config + error) :=
  file ← external (EvOpen filePath) (os_Open filePath);
  match file with
  | inr err => mret (inr (wrap "failed to open config file: " err))
  | inl content =>
      match json_Decode content with
      | inr err => mret (inr (wrap "failed to decode config file: " err))
      | inl config =>
          match Config_Validate config with
          | Some err => mret (inr (wrap "invalid configuration: " err))
          | None => mret (inl config)
          end
      end
  end.

End config.
End config.

(** ** Package [auth] *)

Definition Second : Z := 1000000000.

Module auth.
Section auth.
Context `{Runtime}.

(** The interface [TokenProvider]: the token and the error that
    [GetAccessToken(ctx, clientID, clientSecret, tenantID, scope)]
    returns, and the world it leaves. *)
Class TokenProvider (P : Type) :=
  GetAccessToken :
    P → string → string → string → string → World →
    (string * option error) * World.

(** The two functions of the Azure Identity SDK the provider calls:
    [azidentity.NewClientSecretCredential(tenantID, clientID,
    clientSecret, nil)] and [credential.GetToken(ctx, options)], which
    yields [token.Token] or an error. *)
Class Azidentity := {
  Credential : Type;
  NewClientSecretCredential : string → string → string → Credential + error;
  GetToken : Credential → list string → World → (string + error) * World
}.

Record EntraIDTokenProvider := { timeout : Z }.

Definition NewEntraIDTokenProvider : EntraIDTokenProvider :=
  {| timeout := 30 * Second |}.

Definition NewEntraIDTokenProviderWithTimeout (t : Z) : EntraIDTokenProvider :=
  {| timeout := t |}.

(** [(p *EntraIDTokenProvider) GetAccessToken] *)
#[global] Instance EntraID_GetAccessToken `{Azidentity} :
    TokenProvider EntraIDTokenProvider :=
  λ p clientID clientSecret tenantID scope w,
    match NewClientSecretCredential tenantID clientID clientSecret with
    | inr err => (("", Some (wrap "failed to create credential: " err)), w)
    | inl credential =>
        let '(r, w') := GetToken credential [scope] w in
        match r with
        | inr err => (("", Some (wrap "failed to acquire token: " err)), w')
        | inl token =>
            if decide (token = "") then
              (("", Some "received empty token"), w')
            else ((token, None), w')
        end
    end.

(** The test double of [auth_test.go]. *)
Record MockTokenProvider := {
  TokenToReturn : string;
  ErrorToReturn : option error
}.

#[global] Instance Mock_GetAccessToken : TokenProvider MockTokenProvider :=
  λ m _ _ _ _ w,
    match ErrorToReturn m with
    | Some err => (("", Some err), w)
    | None => ((TokenToReturn m, None), w)
    end.

End auth.
End auth.

(** ** Package [client] *)

Module client.
Section client.
Context `{Runtime} `{!http.Checker}.

(** The interface [HTTPClient]. *)
Class HTTPClient (C : Type) :=
  Do : C → http.Request → World → (http.Response + error) * World.

#[global] Instance Client_HTTPClient `{!http.Network} : HTTPClient http.Client :=
  http.Client_Do.

Record APIClient (C : Type) := {
  httpClient : C;
  timeout : Z
}.
Arguments httpClient {C}.
Arguments timeout {C}.

Definition NewAPIClient : APIClient http.Client :=
  {| httpClient := {| http.Timeout := 30 * Second |};
     timeout := 30 * Second |}.

Definition NewAPIClientWithTimeout (t : Z) : APIClient http.Client :=
  {| httpClient := {| http.Timeout := t |}; timeout := t |}.

Definition NewAPIClientWithHTTPClient {C} (c : C) (t : Z) : APIClient C :=
  {| httpClient := c; timeout := t |}.

Record Response := {
  Headers : http.Header;
  Body : bytes;
  StatusCode : Z
}.

(** The test [method == "POST" || method == "PUT" || method == "PATCH"]. *)
Definition carriesBody (method : string) : bool :=
  bool_decide (method = "POST") || bool_decide (method = "PUT")
  || bool_decide (method = "PATCH").

(** The first block of [CallAPI]: the body reader, [None] for the nil
    reader, or the marshalling error. *)
Definition prepareBody (method : string)
    (requestBody : option (gmap string Value)) : option bytes + error :=
  match requestBody with
  | Some body =>
      if carriesBody method then
        match json_Marshal body with
        | inr err => inr (wrap "failed to marshal request body: " err)
        | inl jsonBody => inl (Some jsonBody)
        end
      else inl None
  | None => inl None
  end.

(** The second and third blocks of [CallAPI]: the request handed to
    [httpClient.Do], with its headers set. *)
Definition buildRequest (method url accessToken : string)
    (requestBody : option (gmap string Value))
    (bodyReader : option bytes) : http.Request + error :=
  match http.NewRequestWithContext method url bodyReader with
  | inr err => inr (wrap "failed to create request: " err)
  | inl req =>
      let req :=
        http.Request_SetHeader req "Authorization" ("Bearer " +:+ accessToken) in
      let req :=
        match requestBody with
        | Some _ => http.Request_SetHeader req "Content-Type" "application/json"
        | None => req
        end in
      inl req
  end.

(** [(c *APIClient) CallAPI(ctx, method, url, accessToken, requestBody)] *)
Definition CallAPI {C} `{!HTTPClient C} (c : APIClient C)
    (method url accessToken : string)
    (requestBody : option (gmap string Value)) : M (Response + error) :=
  match prepareBody method requestBody with
  | inr err => mret (inr err)
  | inl bodyReader =>
      match buildRequest method url accessToken requestBody bodyReader with
      | inr err => mret (inr err)
      | inl req =>
          resp ← external (EvDo req) (Do (httpClient c) req);
          match resp with
          | inr err => mret (inr (wrap "failed to execute request: " err))
          | inl resp =>
              match http.Body resp with
              | inr err =>
                  mret (inr (wrap "failed to read response body: " err))
              | inl body =>
                  mret (inl {| StatusCode := http.StatusCode resp;
                               Body := body;
                               Headers := http.RespHeader resp |})
              end
          end
      end
  end.

(** [(r *Response) IsSuccessStatusCode()] *)
Definition IsSuccessStatusCode (r : Response) : bool :=
  (200 <=? StatusCode r) && (StatusCode r <? 300).

(** [(r *Response) GetBodyAsString()] *)
Definition GetBodyAsString (r : Response) : string :=
  string_of_list_byte (Body r).

(** The test double of [client_test.go]. *)
Record MockHTTPClient := {
  DoFunc : http.Request → World → (http.Response + error) * World
}.

#[global] Instance Mock_Do : HTTPClient MockHTTPClient :=
  λ m req, DoFunc m req.

End client.
Arguments httpClient {C}.
Arguments timeout {C}.
End client.

(** ** Package [main] *)

(** [TestResult]; a fresh one holds Go's zero values. *)
Record TestResult := {
  EndpointName : string;
  ErrorMessage : string;
  Duration : Z;
  StatusCode : Z;
  Success : bool;
  AuthSuccess : bool;
  ConnectSuccess : bool;
  ResponseSuccess : bool
}.

(** Assignments to the fields of a [TestResult]. *)
Definition set_ErrorMessage (r : TestResult) (v : string) : TestResult :=
  {| EndpointName := EndpointName r; ErrorMessage := v;
     Duration := Duration r; StatusCode := StatusCode r;
     Success := Success r; AuthSuccess := AuthSuccess r;
     ConnectSuccess := ConnectSuccess r;
     ResponseSuccess := ResponseSuccess r |}.

Definition set_Duration (r : TestResult) (v : Z) : TestResult :=
  {| EndpointName := EndpointName r; ErrorMessage := ErrorMessage r;
     Duration := v; StatusCode := StatusCode r;
     Success := Success r; AuthSuccess := AuthSuccess r;
     ConnectSuccess := ConnectSuccess r;
     ResponseSuccess := ResponseSuccess r |}.

Definition set_StatusCode (r : TestResult) (v : Z) : TestResult :=
  {| EndpointName := EndpointName r; ErrorMessage := ErrorMessage r;
     Duration := Duration r; StatusCode := v;
     Success := Success r; AuthSuccess := AuthSuccess r;
     ConnectSuccess := ConnectSuccess r;
     ResponseSuccess := ResponseSuccess r |}.

Definition set_Success (r : TestResult) (v : bool) : TestResult :=
  {| EndpointName := EndpointName r; ErrorMessage := ErrorMessage r;
     Duration := Duration r; StatusCode := StatusCode r;
     Success := v; AuthSuccess := AuthSuccess r;
     ConnectSuccess := ConnectSuccess r;
     ResponseSuccess := ResponseSuccess r |}.

Definition set_AuthSuccess (r : TestResult) (v : bool) : TestResult :=
  {| EndpointName := EndpointName r; ErrorMessage := ErrorMessage r;
     Duration := Duration r; StatusCode := StatusCode r;
     Success := Success r; AuthSuccess := v;
     ConnectSuccess := ConnectSuccess r;
     ResponseSuccess := ResponseSuccess r |}.

Definition set_ConnectSuccess (r : TestResult) (v : bool) : TestResult :=
  {| EndpointName := EndpointName r; ErrorMessage := ErrorMessage r;
     Duration := Duration r; StatusCode := StatusCode r;
     Success := Success r; AuthSuccess := AuthSuccess r;
     ConnectSuccess := v;
     ResponseSuccess := ResponseSuccess r |}.

Definition set_ResponseSuccess (r : TestResult) (v : bool) : TestResult :=
  {| EndpointName := EndpointName r; ErrorMessage := ErrorMessage r;
     Duration := Duration r; StatusCode := StatusCode r;
     Success := Success r; AuthSuccess := AuthSuccess r;
     ConnectSuccess := ConnectSuccess r;
     ResponseSuccess := v |}.

Section tester.
Context `{Runtime} `{!http.Checker}.
Context {P C : Type} `{!auth.TokenProvider P} `{!client.HTTPClient C}.

(** [testEndpoint(ctx, endpoint, tokenProvider, apiClient, verbose)];
    [verbose] only adds console output. *)
Definition testEndpoint (endpoint : config.Endpoint) (tokenProvider : P)
    (apiClient : client.APIClient C) (verbose : bool) : M TestResult :=
  let result :=
    {| EndpointName := config.Name endpoint; ErrorMessage := "";
       Duration := 0; StatusCode := 0; Success := false;
       AuthSuccess := false; ConnectSuccess := false;
       ResponseSuccess := false |} in
  startTime ← timeNow;
  (* Step 1: Authenticate *)
  '(token, err) ←
    external
      (EvGetAccessToken (config.ClientID endpoint)
         (config.ClientSecret endpoint) (config.TenantID endpoint)
         (config.Scope endpoint))
      (auth.GetAccessToken tokenProvider (config.ClientID endpoint)
         (config.ClientSecret endpoint) (config.TenantID endpoint)
         (config.Scope endpoint));
  match err with
  | Some err =>
      let result :=
        set_ErrorMessage result (wrap "Authentication failed: " err) in
      now ← timeNow;
      mret (set_Duration result (now - startTime))
  | None =>
      let result := set_AuthSuccess result true in
      (* Step 2: Make API call *)
      response ←
        client.CallAPI apiClient (config.Method endpoint)
          (config.URL endpoint) token (config.RequestBody endpoint);
      match response with
      | inr err =>
          let result :=
            set_ErrorMessage result (wrap "Request failed: " err) in
          now ← timeNow;
          mret (set_Duration result (now - startTime))
      | inl response =>
          let result := set_ConnectSuccess result true in
          let result :=
            set_StatusCode result (client.StatusCode response) in
          now ← timeNow;
          let result := set_Duration result (now - startTime) in
          (* Step 3: Check response *)
          if client.IsSuccessStatusCode response then
            mret (set_Success (set_ResponseSuccess result true) true)
          else
            mret (set_ErrorMessage result
                    ("Unexpected status code: "
                     +:+ fmt_d (client.StatusCode response)))
      end
  end.

(** The loop of [main] over [cfg.Endpoints], with [results] the slice
    built so far. *)
Fixpoint testAll (endpoints : list config.Endpoint)
    (results : list TestResult) (tokenProvider : P)
    (apiClient : client.APIClient C) (verbose : bool)
    : M (list TestResult) :=
  match endpoints with
  | [] => mret results
  | endpoint :: rest =>
      result ← testEndpoint endpoint tokenProvider apiClient verbose;
      testAll rest (results ++ [result]) tokenProvider apiClient verbose
  end.
End tester.

(** The counters of [printSummary]. *)
Record Counters := {
  passed : Z;
  authFailed : Z;
  connectFailed : Z;
  responseFailed : Z
}.

(** The body of the loop of [printSummary]. *)
Definition count (c : Counters) (result : TestResult) : Counters :=
  if Success result then
    {| passed := passed c + 1; authFailed := authFailed c;
       connectFailed := connectFailed c;
       responseFailed := responseFailed c |}
  else if negb (AuthSuccess result) then
    {| passed := passed c; authFailed := authFailed c + 1;
       connectFailed := connectFailed c;
       responseFailed := responseFailed c |}
  else if negb (ConnectSuccess result) then
    {| passed := passed c; authFailed := authFailed c;
       connectFailed := connectFailed c + 1;
       responseFailed := responseFailed c |}
  else
    {| passed := passed c; authFailed := authFailed c;
       connectFailed := connectFailed c;
       responseFailed := responseFailed c + 1 |}.

(** [float64(part)/float64(total)*100], over the rationals: the rounding
    of [float64] and of the verb [%.1f] is not modelled. *)
Definition percent (part total : Z) : Q :=
  (inject_Z part / inject_Z total * 100)%Q.

(** What [printSummary] prints. *)
Record Summary := {
  Total : Z;
  Passed : Z;
  PassedPercent : Q;
  Failed : Z;
  FailedPercent : Q;
  AuthFailures : Z;
  ConnectFailures : Z;
  ResponseFailures : Z
}.

(** [printSummary(results)] *)
Definition printSummary (results : list TestResult) : Summary :=
  let total := Z.of_nat (length results) in
  let c :=
    fold_left count results
      {| passed := 0; authFailed := 0; connectFailed := 0;
         responseFailed := 0 |} in
  {| Total := total;
     Passed := passed c;
     PassedPercent := percent (passed c) total;
     Failed := total - passed c;
     FailedPercent := percent (total - passed c) total;
     AuthFailures := authFailed c;
     ConnectFailures := connectFailed c;
     ResponseFailures := responseFailed c |}.

(** [hasFailures(results)] *)
Fixpoint hasFailures (results : list TestResult) : bool :=
  match results with
  | [] => false
  | result :: rest => if negb (Success result) then true else hasFailures rest
  end.

(** What a run of [main] leaves behind: the exit status of the process,
    the results collected and the summary printed, if the run got there. *)
Record Run := {
  ExitStatus : Z;
  Results : list TestResult;
  Printed : option Summary
}.

Section main.
Context `{Runtime} `{!http.Checker} `{!http.Network}.
Context `{!config.Loader} `{!auth.Azidentity}.

(** [main()], after the flags [-config] and [-verbose] are parsed.
    [log.Fatalf] and [os.Exit(1)] end the process with status 1; a
    return from [main] ends it with status 0. *)
Definition main (configPath : string) (verbose : bool) : M Run :=
  cfg ← config.LoadConfig configPath;
  match cfg with
  | inr err => mret {| ExitStatus := 1; Results := []; Printed := None |}
  | inl cfg =>
      let tokenProvider := auth.NewEntraIDTokenProvider in
      let apiClient := client.NewAPIClient in
      results ←
        testAll (config.Endpoints cfg) [] tokenProvider apiClient verbose;
      let summary := printSummary results in
      if hasFailures results then
        mret {| ExitStatus := 1; Results := results;
                Printed := Some summary |}
      else
        mret {| ExitStatus := 0; Results := results;
                Printed := Some summary |}
  end.
End main.

(** ** Package [main]: the console *)

(** The loop of [repeat], with [fuel] turns left. *)
Fixpoint repeat_loop (fuel : nat) (result s : string) : string :=
  match fuel with
  | O => result
  | S fuel => repeat_loop fuel (result +:+ s) s
  end.

(** [repeat(s, n)]: the loop [for i := 0; i < n; i++] makes [n] turns, and
    none when [n] is not positive. *)
Definition repeat (s : string) (n : Z) : string :=
  repeat_loop (Z.to_nat n) EmptyString s.

(** The verb [%v] of package [fmt] on a [time.Duration], which is
    [Duration.String()] of the Go library. *)
Class Formatter := fmt_Duration : Z → string.

(** [printTestResult(result)]: the lines it writes to the standard
    output, without their line ends. *)
Definition printTestResult `{Formatter} (result : TestResult) : list string :=
  if Success result then
    ["    ✓ PASS - All checks passed (Duration: "
     +:+ fmt_Duration (Duration result) +:+ ")"]
  else
    ["    ✗ FAIL - " +:+ ErrorMessage result +:+ " (Duration: "
     +:+ fmt_Duration (Duration result) +:+ ")"]
    ++ [if negb (AuthSuccess result) then "      • Authentication: FAILED"
        else "      • Authentication: PASSED"]
    ++ (if ConnectSuccess result then
          ["      • Connectivity: PASSED";
           "      • Response Status: FAILED (Status Code: "
           +:+ fmt_d (StatusCode result) +:+ ")"]
        else ["      • Connectivity: FAILED"]).

(** ** Vocabulary of the statements *)

(** The credentials of the token calls in a log, in the order of the calls. *)
Definition tokenCalls (log : list Event)
    : list (string * string * string * string) :=
  omap (λ ev, match ev with
              | EvGetAccessToken i s t sc => Some (i, s, t, sc)
              | _ => None
              end) log.

(** The requests handed to [httpClient.Do] in a log. *)
Definition httpCalls (log : list Event) : list http.Request :=
  omap (λ ev, match ev with EvDo req => Some req | _ => None end) log.

Definition credentials `{Runtime} (e : config.Endpoint)
    : string * string * string * string :=
  (config.ClientID e, config.ClientSecret e, config.TenantID e,
   config.Scope e).

(** What the token provider answers when [testEndpoint] is started in
    state [s]: its call follows the first reading of the clock. *)
Definition tokenAnswer `{Runtime} {P} `{!auth.TokenProvider P}
    (tokenProvider : P) (e : config.Endpoint) (s : State)
    : string * option error :=
  (auth.GetAccessToken tokenProvider (config.ClientID e)
     (config.ClientSecret e) (config.TenantID e) (config.Scope e)
     (time_Now (world s)).2).1.

(** The buckets of the run summary, in the words of the specification:
    a passed outcome, or the earliest stage that failed. *)
Inductive Bucket := Pass | AuthFailure | ConnectFailure | ResponseFailure.

#[global] Instance Bucket_eq_dec : EqDecision Bucket.
Proof. solve_decision. Defined.

Definition bucketOf (r : TestResult) : Bucket :=
  if Success r then Pass
  else if negb (AuthSuccess r) then AuthFailure
  else if negb (ConnectSuccess r) then ConnectFailure
  else ResponseFailure.

(** How many outcomes of [results] fall into bucket [b]. *)
Definition tally (b : Bucket) (results : list TestResult) : Z :=
  Z.of_nat (length (filter (λ r, bucketOf r = b) results)).

(** The counter of [printSummary] that stands for bucket [b]. *)
Definition counter (b : Bucket) (c : Counters) : Z :=
  match b with
  | Pass => passed c
  | AuthFailure => authFailed c
  | ConnectFailure => connectFailed c
  | ResponseFailure => responseFailed c
  end.

(** A response of which only the status code matters. *)
Definition withStatus (code : Z) : client.Response :=
  {| client.Headers := ∅; client.Body := []; client.StatusCode := code |}.

(** An endpoint as [Validate] wants it: no empty field, and one of the
    five methods. *)
Definition wellFormed `{Runtime} (e : config.Endpoint) : Prop :=
  config.Name e ≠ EmptyString
  ∧ config.URL e ≠ EmptyString
  ∧ config.Method e ∈ ["GET"; "POST"; "PUT"; "PATCH"; "DELETE"]
  ∧ config.ClientID e ≠ EmptyString
  ∧ config.ClientSecret e ≠ EmptyString
  ∧ config.TenantID e ≠ EmptyString
  ∧ config.Scope e ≠ EmptyString.

(** The three shapes of an outcome of [testEndpoint]. *)
Definition authFailed_result (name : string) (err : error) (d : Z)
    : TestResult :=
  {| EndpointName := name;
     ErrorMessage := "Authentication failed: " +:+ err;
     Duration := d; StatusCode := 0; Success := false;
     AuthSuccess := false; ConnectSuccess := false;
     ResponseSuccess := false |}.

Definition requestFailed_result (name : string) (err : error) (d : Z)
    : TestResult :=
  {| EndpointName := name;
     ErrorMessage := "Request failed: " +:+ err;
     Duration := d; StatusCode := 0; Success := false;
     AuthSuccess := true; ConnectSuccess := false;
     ResponseSuccess := false |}.

Definition answered_result (name : string) (code : Z) (d : Z) : TestResult :=
  let ok := (200 <=? code) && (code <? 300) in
  {| EndpointName := name;
     ErrorMessage :=
       if ok then EmptyString else "Unexpected status code: " +:+ fmt_d code;
     Duration := d; StatusCode := code; Success := ok;
     AuthSuccess := true; ConnectSuccess := true;
     ResponseSuccess := ok |}.

(** The bearer token a request carries: what follows [Bearer ] in its
    [Authorization] header. *)
Definition carriesToken (req : http.Request) (token : string) : Prop :=
  http.ReqHeader req !! "Authorization" = Some ["Bearer " +:+ token].

(** The state in which [testEndpoint], started in [s], makes its HTTP
    call: the world the token provider has left, and its call logged. *)
Definition stateAfterToken `{Runtime} {P} `{!auth.TokenProvider P}
    (tokenProvider : P) (e : config.Endpoint) (s : State) : State :=
  {| world :=
       (auth.GetAccessToken tokenProvider (config.ClientID e)
          (config.ClientSecret e) (config.TenantID e) (config.Scope e)
          (time_Now (world s)).2).2;
     calls :=
       calls s ++ [EvGetAccessToken (config.ClientID e)
                     (config.ClientSecret e) (config.TenantID e)
                     (config.Scope e)] |}.

(** ** Test doubles

    A small concrete environment, in the manner of the repository's tests:
    the mock token provider and the mock HTTP client are those of
    [auth_test.go] and [client_test.go]. *)

Module fixture.

(** Dynamic values: strings, numbers, and a Go channel, which
    [json.Marshal] refuses. *)
Inductive value := VString (s : string) | VNumber (n : Z) | VChan.

Definition quote : string := String (ascii_of_nat 34) EmptyString.

Definition render (v : value) : option string :=
  match v with
  | VString s => Some (quote +:+ s +:+ quote)
  | VNumber n => Some (fmt_d n)
  | VChan => None
  end.

Fixpoint renderFields (kvs : list (string * value)) : option string :=
  match kvs with
  | [] => Some EmptyString
  | (k, v) :: rest =>
      match render v, renderFields rest with
      | Some sv, Some srest =>
          Some (quote +:+ k +:+ quote +:+ ":" +:+ sv
                +:+ (match rest with [] => EmptyString | _ => "," end)
                +:+ srest)
      | _, _ => None
      end
  end.

Definition marshal (m : gmap string value) : bytes + error :=
  match renderFields (map_to_list m) with
  | Some s => inl (list_byte_of_string ("{" +:+ s +:+ "}"))
  | None => inr "json: unsupported type: chan int"
  end.

(** The world is the reading of the clock. *)
Definition runtime : Runtime :=
  {| World := Z; Value := value;
     time_Now := λ w, (w, w + 1);
     json_Marshal := marshal |}.
#[local] Existing Instance runtime.

(** The URL of [TestCallAPI_InvalidURL] is refused, any other passes. *)
Definition checker : http.Checker :=
  λ method url,
    if decide (url = "://invalid-url") then
      Some "parse ://invalid-url: missing protocol scheme"
    else None.

(** A server that answers with [status] and an empty body. *)
Definition server (status : Z) : @client.MockHTTPClient runtime :=
  {| client.DoFunc := λ req w,
       (inl {| http.StatusCode := status; http.RespHeader := ∅;
               http.Body := inl [] |}, w) |}.

Definition apiClient (status : Z)
    : client.APIClient (@client.MockHTTPClient runtime) :=
  client.NewAPIClientWithHTTPClient (server status) (30 * Second).

Definition goodProvider : auth.MockTokenProvider :=
  {| auth.TokenToReturn := "mock-token-12345"; auth.ErrorToReturn := None |}.

Definition failingProvider : auth.MockTokenProvider :=
  {| auth.TokenToReturn := EmptyString;
     auth.ErrorToReturn := Some "context deadline exceeded" |}.

(** A provider that hands out the empty token and no error. *)
Definition emptyProvider : auth.MockTokenProvider :=
  {| auth.TokenToReturn := EmptyString; auth.ErrorToReturn := None |}.

Definition endpoint (name method : string)
    (body : option (gmap string value)) : @config.Endpoint runtime :=
  {| config.Name := name; config.URL := "https://api.example.com/items";
     config.Method := method; config.ClientID := "client-id";
     config.ClientSecret := "client-secret";
     config.TenantID := "tenant-id";
     config.Scope := "api://app/.default";
     config.RequestBody := body |}.

Definition goodBody : gmap string value :=
  {[ "test" := VString "data" ]}.

Definition badBody : gmap string value :=
  {[ "events" := VChan ]}.

(** The network behind [http.Client]: every server answers 200. *)
Definition network : @http.Network runtime :=
  λ c req w,
    (inl {| http.StatusCode := 200; http.RespHeader := ∅;
            http.Body := inl [] |}, w).

(** An identity provider that issues the same token to everyone. *)
Definition azidentity : @auth.Azidentity runtime :=
  {| auth.Credential := string * string * string;
     auth.NewClientSecretCredential := λ t i s, inl (t, i, s);
     auth.GetToken := λ _ _ w, (inl "eyJ0eXAi", w) |}.

(** A file system that holds [config.json] only, and a decoder that
    reads one GET endpoint out of it. *)
Definition loader : @config.Loader runtime :=
  {| config.os_Open := λ path w,
       if decide (path = "config.json") then (inl [], w)
       else (inr ("open " +:+ path +:+ ": no such file or directory"), w);
     config.json_Decode := λ _,
       inl {| config.Endpoints := [endpoint "items" "GET" None] |} |}.

(** A server that answers 404 to GET and 201 to any other method. *)
Definition router : @client.MockHTTPClient runtime :=
  {| client.DoFunc := λ req w,
       (inl {| http.StatusCode :=
                 if decide (http.ReqMethod req = "GET") then 404 else 201;
               http.RespHeader := ∅; http.Body := inl [] |}, w) |}.

(** A server that cannot be reached before the deadline. *)
Definition unreachable : @client.MockHTTPClient runtime :=
  {| client.DoFunc := λ req w, (inr "context deadline exceeded", w) |}.

(** Durations printed as a count of nanoseconds. *)
Definition formatter : Formatter := λ d, fmt_d d +:+ "ns".

(** The state in which the examples start: clock at 0, empty log. *)
Definition start : @State runtime := @initial runtime 0.

End fixture.

(** * Properties *)

(** ** Running the monad *)

(** One step of symbolic execution: name the outcome of the next call or
    test the program branches on. *)
Ltac run_step :=
  match goal with
  | |- context [time_Now ?w] => destruct (time_Now w) eqn:?
  | |- context [let '(_, _) := (let '(_, _) := ?e in _) in _] =>
      destruct e eqn:?
  | |- context [let '(_, _) := ?e in _] => destruct e eqn:?
  | |- context [match ?e with _ => _ end] => destruct e eqn:?
  end.

Ltac run_monad :=
  cbv beta delta [mbind mret M_bind M_ret external timeNow] in *.

Section CallAPI_facts.
Context `{Runtime} `{!http.Checker} {C : Type} `{!client.HTTPClient C}.
Implicit Types (c : client.APIClient C) (s : State).
Implicit Types (requestBody : option (gmap string Value)).

(** [CallAPI] step by step: the body, the request, the call, the
    reading of the answer. *)
Lemma CallAPI_eq c method url accessToken requestBody s :
  client.CallAPI c method url accessToken requestBody s =
  match client.prepareBody method requestBody with
  | inr err => (inr err, s)
  | inl bodyReader =>
      match client.buildRequest method url accessToken requestBody
              bodyReader with
      | inr err => (inr err, s)
      | inl req =>
          let '(resp, w) := client.Do (client.httpClient c) req (world s) in
          (match resp with
           | inr err => inr (wrap "failed to execute request: " err)
           | inl resp =>
               match http.Body resp with
               | inr err => inr (wrap "failed to read response body: " err)
               | inl body =>
                   inl {| client.StatusCode := http.StatusCode resp;
                          client.Body := body;
                          client.Headers := http.RespHeader resp |}
               end
           end,
           {| world := w; calls := calls s ++ [EvDo req] |})
      end
  end.
Proof.
  unfold client.CallAPI. run_monad.
  repeat run_step; simplify_eq; congruence.
Qed.

(** [CallAPI] hands at most one request to the HTTP client, and none when
    it fails before the call. *)
Lemma CallAPI_calls c method url accessToken requestBody s :
  let s' := (client.CallAPI c method url accessToken requestBody s).2 in
  match client.prepareBody method requestBody with
  | inr _ => s' = s
  | inl bodyReader =>
      match client.buildRequest method url accessToken requestBody
              bodyReader with
      | inr _ => s' = s
      | inl req => calls s' = calls s ++ [EvDo req]
      end
  end.
Proof.
  cbv zeta. rewrite CallAPI_eq.
  repeat run_step; simplify_eq; cbn; congruence.
Qed.

(** A request that is built carries the reader it was given. *)
Lemma buildRequest_body method url accessToken requestBody bodyReader req :
  client.buildRequest method url accessToken requestBody bodyReader
    = inl req →
  http.ReqBody req = bodyReader.
Proof.
  unfold client.buildRequest, http.NewRequestWithContext.
  destruct (http.requestError _ url); [discriminate|].
  destruct requestBody; intros [= <-]; reflexivity.
Qed.

(** ... and the two headers: the bearer token always, the content type
    when the configured body is not nil. *)
Lemma buildRequest_headers method url accessToken requestBody bodyReader req :
  client.buildRequest method url accessToken requestBody bodyReader
    = inl req →
  http.ReqHeader req !! "Authorization" = Some ["Bearer " +:+ accessToken]
  ∧ http.ReqHeader req !! "Content-Type" =
      match requestBody with
      | Some _ => Some ["application/json"]
      | None => None
      end.
Proof.
  unfold client.buildRequest, http.NewRequestWithContext.
  destruct (http.requestError _ url); [discriminate|].
  destruct requestBody; intros [= <-]; cbn;
    unfold http.Header_Set; split; by simplify_map_eq.
Qed.
End CallAPI_facts.

Section tester_facts.
Context `{Runtime} `{!http.Checker}.
Context {P C : Type} `{!auth.TokenProvider P} `{!client.HTTPClient C}.
Implicit Types (e : config.Endpoint) (tp : P) (api : client.APIClient C).
Implicit Types (s : State) (verbose : bool).

(** C1.  Whatever the token provider and the API client answer, the
    stage flags of the outcome of [testEndpoint] form a prefix:
    [ConnectSuccess] holds only with [AuthSuccess], and
    [ResponseSuccess] only with [ConnectSuccess]. *)
Theorem testEndpoint_prefix e tp api verbose s :
  let r := (testEndpoint e tp api verbose s).1 in
  (ConnectSuccess r = true → AuthSuccess r = true)
  ∧ (ResponseSuccess r = true → ConnectSuccess r = true).
Proof.
  unfold testEndpoint. run_monad.
  repeat run_step; simplify_eq; cbn; split; congruence.
Qed.
End tester_facts.

Section tester_status.
Context `{Runtime} `{!http.Checker}.
Context {P C : Type} `{!auth.TokenProvider P} `{!client.HTTPClient C}.
Implicit Types (e : config.Endpoint) (tp : P) (api : client.APIClient C).
Implicit Types (s : State) (verbose : bool).

Lemma IsSuccessStatusCode_iff (r : client.Response) :
  client.IsSuccessStatusCode r = true ↔ 200 ≤ client.StatusCode r < 300.
Proof. unfold client.IsSuccessStatusCode. lia. Qed.

(** C4.  When the HTTP exchange of an outcome completed,
    [ResponseSuccess] holds exactly when the status code lies in
    [200, 300); at the edges, 199 and 300 are failures, 200 and 299 are
    successes. *)
Theorem testEndpoint_status_class e tp api verbose s :
  let r := (testEndpoint e tp api verbose s).1 in
  ConnectSuccess r = true →
  (ResponseSuccess r = true ↔ 200 ≤ StatusCode r < 300)
  ∧ client.IsSuccessStatusCode (withStatus 199) = false
  ∧ client.IsSuccessStatusCode (withStatus 300) = false
  ∧ client.IsSuccessStatusCode (withStatus 200) = true
  ∧ client.IsSuccessStatusCode (withStatus 299) = true.
Proof.
  cbv zeta. intros Hconnect.
  split; [|by repeat split].
  revert Hconnect. unfold testEndpoint. run_monad.
  repeat run_step; simplify_eq; cbn; try discriminate; intros _.
  - split; [intros _|done].
    by apply IsSuccessStatusCode_iff.
  - split; [discriminate|]. intros Hrange.
    apply IsSuccessStatusCode_iff in Hrange. congruence.
Qed.
End tester_status.

(** The outcome of a GET answered with 200 has a completed exchange. *)
Lemma testEndpoint_status_class_witness :
  let r :=
    (testEndpoint (H := fixture.runtime) (H0 := fixture.checker)
       (fixture.endpoint "items" "GET" None) fixture.goodProvider
       (fixture.apiClient 200) false fixture.start).1 in
  ConnectSuccess r = true
  ∧ (ResponseSuccess r = true ↔ 200 ≤ StatusCode r < 300).
Proof.
  split; [reflexivity|].
  apply (testEndpoint_status_class (H := fixture.runtime)
           (H0 := fixture.checker)
           (fixture.endpoint "items" "GET" None) fixture.goodProvider
           (fixture.apiClient 200) false fixture.start).
  reflexivity.
Defined.

(** ** The run summary *)

Lemma count_counter (b : Bucket) (c : Counters) (r : TestResult) :
  counter b (count c r) =
  counter b c + (if decide (bucketOf r = b) then 1 else 0).
Proof.
  unfold count, bucketOf.
  destruct (Success r), (AuthSuccess r), (ConnectSuccess r), b; cbn;
    case_decide; simplify_eq; lia.
Qed.

Lemma fold_count_counter (b : Bucket) (results : list TestResult) :
  ∀ c, counter b (fold_left count results c) = counter b c + tally b results.
Proof.
  unfold tally.
  induction results as [|r results IH]; intros c; cbn [fold_left].
  - cbn. lia.
  - rewrite IH, count_counter, filter_cons.
    destruct (decide (bucketOf r = b)); cbn [length]; lia.
Qed.

Lemma tally_total (results : list TestResult) :
  Z.of_nat (length results) =
  tally Pass results + tally AuthFailure results
  + tally ConnectFailure results + tally ResponseFailure results.
Proof.
  unfold tally.
  induction results as [|r results IH]; [done|].
  rewrite !filter_cons. cbn [length].
  destruct (bucketOf r);
    repeat (case_decide; try discriminate); try done; cbn [length]; lia.
Qed.

(** C2.  [printSummary] counts in [Passed] the outcomes that succeeded
    and attributes every failed outcome to the bucket of its earliest
    failing stage, one bucket per outcome; the total is the sum of the
    four counts. *)
Theorem printSummary_buckets (results : list TestResult) :
  let sm := printSummary results in
  Passed sm = tally Pass results
  ∧ AuthFailures sm = tally AuthFailure results
  ∧ ConnectFailures sm = tally ConnectFailure results
  ∧ ResponseFailures sm = tally ResponseFailure results
  ∧ Total sm =
      Passed sm + (AuthFailures sm + ConnectFailures sm + ResponseFailures sm)
  ∧ Failed sm = AuthFailures sm + ConnectFailures sm + ResponseFailures sm
  ∧ ∀ c r b, counter b (count c r) =
             counter b c + (if decide (bucketOf r = b) then 1 else 0).
Proof.
  cbv zeta. unfold printSummary. cbn [Passed AuthFailures ConnectFailures
    ResponseFailures Total Failed].
  pose proof (fold_count_counter Pass results) as Hp.
  pose proof (fold_count_counter AuthFailure results) as Ha.
  pose proof (fold_count_counter ConnectFailure results) as Hc.
  pose proof (fold_count_counter ResponseFailure results) as Hr.
  cbn [counter] in Hp, Ha, Hc, Hr.
  rewrite Hp, Ha, Hc, Hr. cbn.
  pose proof (tally_total results).
  repeat split; try lia.
  intros c r b. apply count_counter.
Qed.

(** ** The loop over the endpoints *)

Section loop_facts.
Context `{Runtime} `{!http.Checker}.
Context {P C : Type} `{!auth.TokenProvider P} `{!client.HTTPClient C}.
Implicit Types (e : config.Endpoint) (tp : P) (api : client.APIClient C).
Implicit Types (s : State) (verbose : bool).
Implicit Types (eps pre post : list config.Endpoint).
Implicit Types (acc : list TestResult).

Lemma tokenCalls_app (l1 l2 : list Event) :
  tokenCalls (l1 ++ l2) = tokenCalls l1 ++ tokenCalls l2.
Proof. apply omap_app. Qed.

(** An outcome carries the name of its endpoint. *)
Lemma testEndpoint_name e tp api verbose s :
  EndpointName (testEndpoint e tp api verbose s).1 = config.Name e.
Proof.
  unfold testEndpoint. run_monad.
  repeat run_step; by simplify_eq.
Qed.

(** A test asks for a token exactly once. *)
Lemma testEndpoint_tokenCalls e tp api verbose s :
  tokenCalls (calls (testEndpoint e tp api verbose s).2) =
  tokenCalls (calls s) ++ [credentials e].
Proof.
  unfold testEndpoint. run_monad.
  destruct (time_Now (world s)) as [t0 w0].
  destruct (auth.GetAccessToken _ _ _ _ _ _) as [[token [err|]] w1]; cbn.
  - destruct (time_Now w1). cbn. by rewrite tokenCalls_app.
  - match goal with
    | |- context [client.CallAPI ?c ?m ?u ?t ?b ?st] =>
        pose proof (CallAPI_calls c m u t b st) as Hcalls;
        destruct (client.CallAPI c m u t b st) as [resp s2]
    end.
    cbn in Hcalls.
    assert (tokenCalls (calls s2) = tokenCalls (calls s) ++ [credentials e])
      as Hlog.
    { repeat case_match; simplify_eq; cbn; rewrite ?Hcalls;
        rewrite !tokenCalls_app; cbn; unfold credentials;
        by rewrite ?app_nil_r. }
    repeat run_step; simplify_eq; cbn; exact Hlog.
Qed.

(** The slice built so far is only ever appended to. *)
Lemma testAll_acc eps tp api verbose : ∀ acc s,
  testAll eps acc tp api verbose s =
  (acc ++ (testAll eps [] tp api verbose s).1,
   (testAll eps [] tp api verbose s).2).
Proof.
  induction eps as [|e eps IH]; intros acc s; cbn [testAll]; run_monad.
  - cbn. by rewrite app_nil_r.
  - destruct (testEndpoint e tp api verbose s) as [r s1].
    rewrite (IH (acc ++ [r])), (IH ([] ++ [r])). cbn.
    by rewrite <-app_assoc.
Qed.

Lemma testAll_cons e eps tp api verbose s :
  testAll (e :: eps) [] tp api verbose s =
  (let rs1 := testEndpoint e tp api verbose s in
   let rest := testAll eps [] tp api verbose rs1.2 in
   (rs1.1 :: rest.1, rest.2)).
Proof.
  cbn [testAll]. run_monad.
  destruct (testEndpoint e tp api verbose s) as [r s1].
  by rewrite testAll_acc.
Qed.

(** Testing a list is testing its front, then its back in the state the
    front has left. *)
Lemma testAll_app pre post tp api verbose : ∀ s,
  testAll (pre ++ post) [] tp api verbose s =
  (let front := testAll pre [] tp api verbose s in
   let back := testAll post [] tp api verbose front.2 in
   (front.1 ++ back.1, back.2)).
Proof.
  induction pre as [|e pre IH]; intros s.
  - cbn. by destruct (testAll post [] tp api verbose s).
  - rewrite <-app_comm_cons, !testAll_cons. cbv zeta.
    rewrite IH. reflexivity.
Qed.

Lemma testAll_length eps tp api verbose : ∀ s,
  length (testAll eps [] tp api verbose s).1 = length eps.
Proof.
  induction eps as [|e eps IH]; intros s; [done|].
  rewrite testAll_cons. cbn. by rewrite IH.
Qed.

Lemma testAll_names eps tp api verbose : ∀ s,
  map EndpointName (testAll eps [] tp api verbose s).1 =
  map config.Name eps.
Proof.
  induction eps as [|e eps IH]; intros s; [done|].
  rewrite testAll_cons. cbn. by rewrite IH, testEndpoint_name.
Qed.

Lemma testAll_tokenCalls eps tp api verbose : ∀ s,
  tokenCalls (calls (testAll eps [] tp api verbose s).2) =
  tokenCalls (calls s) ++ map credentials eps.
Proof.
  induction eps as [|e eps IH]; intros s.
  - cbn. by rewrite app_nil_r.
  - rewrite testAll_cons. cbn.
    rewrite IH, testEndpoint_tokenCalls, <-app_assoc. done.
Qed.

(** C3.  The loop of [main] tests every endpoint once, in the order of
    the configuration: it yields as many outcomes as there are
    endpoints, named after them in order, after one token request per
    endpoint in that order; and the outcome at the position of an
    endpoint is the outcome of its own test, run in the state the
    endpoints before it have left, whatever their outcomes were. *)
Theorem testAll_fail_continue eps tp api verbose s :
  let results := (testAll eps [] tp api verbose s).1 in
  let s' := (testAll eps [] tp api verbose s).2 in
  length results = length eps
  ∧ map EndpointName results = map config.Name eps
  ∧ tokenCalls (calls s') = tokenCalls (calls s) ++ map credentials eps
  ∧ ∀ pre e post, eps = pre ++ e :: post →
      results !! length pre =
      Some (testEndpoint e tp api verbose
              (testAll pre [] tp api verbose s).2).1.
Proof.
  cbv zeta. split; [apply testAll_length|].
  split; [apply testAll_names|].
  split; [apply testAll_tokenCalls|].
  intros pre e post ->.
  rewrite testAll_app. cbv zeta. cbn [fst].
  rewrite lookup_app_r by (by rewrite testAll_length).
  rewrite testAll_length, Nat.sub_diag, testAll_cons. done.
Qed.
End loop_facts.

(** ** The authentication stage *)

Section auth_facts.
Context `{Runtime} `{!http.Checker}.

Lemma httpCalls_app (l1 l2 : list Event) :
  httpCalls (l1 ++ l2) = httpCalls l1 ++ httpCalls l2.
Proof. apply omap_app. Qed.

(** The stage is decided by the error of the token provider alone. *)
Lemma testEndpoint_auth {P C : Type} `{!auth.TokenProvider P}
    `{!client.HTTPClient C} (e : config.Endpoint) (tp : P)
    (api : client.APIClient C) (verbose : bool) (s : State) :
  let r := (testEndpoint e tp api verbose s).1 in
  let s' := (testEndpoint e tp api verbose s).2 in
  match (tokenAnswer tp e s).2 with
  | Some err =>
      AuthSuccess r = false ∧ Success r = false
      ∧ ErrorMessage r = "Authentication failed: " +:+ err
      ∧ httpCalls (calls s') = httpCalls (calls s)
  | None => AuthSuccess r = true
  end.
Proof.
  cbv zeta. unfold tokenAnswer, testEndpoint. run_monad.
  destruct (time_Now (world s)) as [t0 w0]. cbn [snd].
  destruct (auth.GetAccessToken _ _ _ _ _ _) as [[token [err|]] w1];
    cbn [fst snd].
  - cbn. destruct (time_Now w1). cbn.
    rewrite httpCalls_app. cbn. by rewrite app_nil_r.
  - repeat run_step; by simplify_eq.
Qed.

(** [EntraIDTokenProvider] answers without an error exactly when it
    answers with a non-empty token. *)
Lemma EntraID_token_nonempty `{!auth.Azidentity}
    (p : auth.EntraIDTokenProvider)
    (clientID clientSecret tenantID scope : string) (w : World) :
  let answer :=
    (auth.GetAccessToken p clientID clientSecret tenantID scope w).1 in
  answer.2 = None ↔ answer.1 ≠ EmptyString.
Proof.
  cbv zeta. unfold auth.GetAccessToken, auth.EntraID_GetAccessToken.
  repeat run_step; simplify_eq; cbn; split; congruence.
Qed.

(** An empty token of the identity provider is an error of
    [EntraIDTokenProvider]. *)
Lemma EntraID_empty_token `{!auth.Azidentity}
    (p : auth.EntraIDTokenProvider)
    (clientID clientSecret tenantID scope : string) (w : World)
    (credential : auth.Credential) :
  auth.NewClientSecretCredential tenantID clientID clientSecret
    = inl credential →
  (auth.GetToken credential [scope] w).1 = inl EmptyString →
  (auth.GetAccessToken p clientID clientSecret tenantID scope w).1
    = (EmptyString, Some "received empty token").
Proof.
  intros Hcred Htok.
  unfold auth.GetAccessToken, auth.EntraID_GetAccessToken.
  rewrite Hcred.
  destruct (auth.GetToken credential [scope] w) as [tok w'].
  cbn in Htok. subst tok. reflexivity.
Qed.

(** C5, as the code has it.  [testEndpoint] takes a non-nil error of the
    token provider, and nothing else, for the failure of the first
    stage: it then stops without an HTTP call, [AuthSuccess] is false and
    the message is [Authentication failed: ] followed by the cause.  The
    empty token is caught one level down: [EntraIDTokenProvider] turns an
    empty token of the identity provider into the error
    [received empty token], which [testEndpoint] reports as a failure of
    the first stage; with this provider [AuthSuccess] holds exactly when
    a non-empty token was obtained. *)
Theorem testEndpoint_auth_by_error :
  (∀ (P C : Type) (TP : auth.TokenProvider P) (HC : client.HTTPClient C)
     (e : config.Endpoint) (tp : P) (api : client.APIClient C)
     (verbose : bool) (s : State),
     let r := (testEndpoint e tp api verbose s).1 in
     let s' := (testEndpoint e tp api verbose s).2 in
     match (tokenAnswer tp e s).2 with
     | Some err =>
         AuthSuccess r = false ∧ Success r = false
         ∧ ErrorMessage r = "Authentication failed: " +:+ err
         ∧ httpCalls (calls s') = httpCalls (calls s)
     | None => AuthSuccess r = true
     end)
  ∧ (∀ (AZ : auth.Azidentity) (C : Type) (HC : client.HTTPClient C)
       (e : config.Endpoint) (p : auth.EntraIDTokenProvider)
       (api : client.APIClient C) (verbose : bool) (s : State)
       (credential : auth.Credential),
       auth.NewClientSecretCredential (config.TenantID e) (config.ClientID e)
         (config.ClientSecret e) = inl credential →
       (auth.GetToken credential [config.Scope e] (time_Now (world s)).2).1
         = inl EmptyString →
       let r := (testEndpoint e p api verbose s).1 in
       let s' := (testEndpoint e p api verbose s).2 in
       AuthSuccess r = false
       ∧ ErrorMessage r = "Authentication failed: received empty token"
       ∧ httpCalls (calls s') = httpCalls (calls s))
  ∧ (∀ (AZ : auth.Azidentity) (C : Type) (HC : client.HTTPClient C)
       (e : config.Endpoint) (p : auth.EntraIDTokenProvider)
       (api : client.APIClient C) (verbose : bool) (s : State),
       AuthSuccess (testEndpoint e p api verbose s).1 = true
       ↔ (tokenAnswer p e s).1 ≠ EmptyString).
Proof.
  split; [intros; apply testEndpoint_auth|]. split.
  - intros AZ C HC e p api verbose s credential Hcred Htok.
    pose proof (testEndpoint_auth e p api verbose s) as Hauth.
    cbv zeta in Hauth. unfold tokenAnswer in Hauth.
    rewrite (EntraID_empty_token p _ _ _ _ _ credential Hcred Htok) in Hauth.
    cbv zeta. by destruct Hauth as (? & _ & ? & ?).
  - intros AZ C HC e p api verbose s.
    pose proof (testEndpoint_auth e p api verbose s) as Hauth.
    cbv zeta in Hauth. unfold tokenAnswer at 1.
    rewrite <-(EntraID_token_nonempty p (config.ClientID e)
                 (config.ClientSecret e) (config.TenantID e)
                 (config.Scope e) (time_Now (world s)).2).
    fold (tokenAnswer p e s).
    destruct (tokenAnswer p e s).2 as [err|].
    + destruct Hauth as (Hfalse & _). rewrite Hfalse. split; discriminate.
    + by rewrite Hauth.
Qed.
End auth_facts.

(** C5, as the specification has it, fails on [testEndpoint]: the mock
    provider of the tests, set to return the empty token and no error,
    passes the first stage. *)
Lemma empty_token_passes_auth :
  let e := fixture.endpoint "items" "GET" None in
  let r :=
    (testEndpoint (H := fixture.runtime) (H0 := fixture.checker)
       e fixture.emptyProvider (fixture.apiClient 200) false
       fixture.start).1 in
  ¬ (tokenAnswer (H := fixture.runtime) fixture.emptyProvider e fixture.start
       = (EmptyString, None) →
     AuthSuccess r = false
     ∧ String.prefix "Authentication failed: " (ErrorMessage r) = true).
Proof.
  cbv zeta. intros Hclaim.
  destruct Hclaim as [Hauth _]; [reflexivity|].
  vm_compute in Hauth. discriminate.
Qed.

(** An identity provider that issues the empty token: seen through
    [EntraIDTokenProvider], the test fails at the first stage. *)
Lemma testEndpoint_auth_by_error_witness :
  let az : @auth.Azidentity fixture.runtime :=
    {| auth.Credential := unit;
       auth.NewClientSecretCredential := λ _ _ _, inl ();
       auth.GetToken := λ _ _ w, (inl EmptyString, w) |} in
  let run :=
    testEndpoint (H := fixture.runtime) (H0 := fixture.checker)
      (fixture.endpoint "items" "GET" None) auth.NewEntraIDTokenProvider
      (fixture.apiClient 200) false fixture.start in
  AuthSuccess run.1 = false
  ∧ ErrorMessage run.1 = "Authentication failed: received empty token"
  ∧ httpCalls (calls run.2) = httpCalls (calls fixture.start).
Proof.
  intros az.
  apply (proj1 (proj2 (testEndpoint_auth_by_error (H := fixture.runtime)
                         (H0 := fixture.checker)))
           az _ _ (fixture.endpoint "items" "GET" None)
           auth.NewEntraIDTokenProvider (fixture.apiClient 200) false
           fixture.start ());
    reflexivity.
Defined.

(** ** The request of [CallAPI] *)

(** C6, evaluated where the code departs from it: for an endpoint that
    passes validation with the method GET and a configured body, the
    request that goes out has no body, and still announces one with
    [Content-Type: application/json]. *)
Theorem CallAPI_GET_body_sets_ContentType :
  let e := fixture.endpoint "items" "GET" (Some fixture.goodBody) in
  let s' :=
    (testEndpoint (H := fixture.runtime) (H0 := fixture.checker)
       e fixture.goodProvider (fixture.apiClient 200) false
       fixture.start).2 in
  config.Endpoint_Validate e = None
  ∧ ∃ req,
      httpCalls (calls s') = [req]
      ∧ http.ReqMethod req = "GET"
      ∧ http.ReqBody req = None
      ∧ http.Header_Get (http.ReqHeader req) "Authorization"
        = "Bearer mock-token-12345"
      ∧ http.Header_Get (http.ReqHeader req) "Content-Type"
        = "application/json".
Proof.
  cbv zeta. split; [reflexivity|].
  eexists. split; [vm_compute; reflexivity|].
  repeat split; vm_compute; reflexivity.
Qed.

Section body_facts.
Context `{Runtime} `{!http.Checker}.

Lemma carriesBody_iff (method : string) :
  client.carriesBody method = true ↔ method ∈ ["POST"; "PUT"; "PATCH"].
Proof.
  unfold client.carriesBody.
  rewrite !orb_true_iff, !bool_decide_eq_true, !elem_of_cons, elem_of_nil.
  tauto.
Qed.

(** A request for one of the five methods that passes the checks of
    [net/http] is handed to the HTTP client, with the body prepared
    for it; when the client answers and the answer can be read, [CallAPI]
    returns it. *)
Lemma CallAPI_sends {C : Type} `{!client.HTTPClient C}
    (c : client.APIClient C) (method url accessToken : string)
    (requestBody : option (gmap string Value)) (bodyReader : option bytes)
    (s : State) :
  method ≠ EmptyString →
  http.requestError method url = None →
  client.prepareBody method requestBody = inl bodyReader →
  let out := client.CallAPI c method url accessToken requestBody s in
  ∃ req,
    calls out.2 = calls s ++ [EvDo req]
    ∧ http.ReqMethod req = method
    ∧ http.ReqBody req = bodyReader
    ∧ ∀ resp body,
        (client.Do (client.httpClient c) req (world s)).1 = inl resp →
        http.Body resp = inl body →
        out.1 = inl {| client.StatusCode := http.StatusCode resp;
                       client.Body := body;
                       client.Headers := http.RespHeader resp |}.
Proof.
  intros Hmethod Hcheck Hbody. cbv zeta.
  rewrite CallAPI_eq, Hbody.
  destruct (client.buildRequest method url accessToken requestBody
              bodyReader) as [req|err] eqn:Hreq.
  - exists req.
    destruct (client.Do (client.httpClient c) req (world s)) as [answer w].
    cbn [fst snd calls]. split; [done|].
    split.
    { revert Hreq. unfold client.buildRequest, http.NewRequestWithContext.
      rewrite decide_False by done. rewrite Hcheck.
      destruct requestBody; by intros [= <-]. }
    split; [by eapply buildRequest_body|].
    intros resp body -> Hread. by rewrite Hread.
  - revert Hreq. unfold client.buildRequest, http.NewRequestWithContext.
    rewrite decide_False by done. by rewrite Hcheck.
Qed.

(** The headers of the request that goes out: the bearer token in every
    case; the content type whenever the configured body is not nil,
    whether or not the method lets the body be attached. *)
Lemma CallAPI_request_headers {C : Type} `{!client.HTTPClient C}
    (c : client.APIClient C) (method url accessToken : string)
    (requestBody : option (gmap string Value)) (s : State) (req : http.Request) :
  EvDo req ∈ calls (client.CallAPI c method url accessToken requestBody s).2 →
  EvDo req ∉ calls s →
  http.ReqHeader req !! "Authorization" = Some ["Bearer " +:+ accessToken]
  ∧ http.ReqHeader req !! "Content-Type" =
      match requestBody with
      | Some _ => Some ["application/json"]
      | None => None
      end.
Proof.
  intros Hin Hnotin.
  pose proof (CallAPI_calls c method url accessToken requestBody s) as Hcalls.
  cbv zeta in Hcalls.
  destruct (client.prepareBody method requestBody) as [bodyReader|err];
    [|by rewrite Hcalls in Hin].
  destruct (client.buildRequest method url accessToken requestBody bodyReader)
    as [req'|err] eqn:Hreq; [|by rewrite Hcalls in Hin].
  rewrite Hcalls in Hin.
  apply elem_of_app in Hin as [Hin|Hin]; [done|].
  apply list_elem_of_singleton in Hin as [= ->].
  by eapply buildRequest_headers.
Qed.

(** C7.  With a non-nil configured body, the request that [CallAPI]
    hands to the HTTP client carries the JSON form of the body when the
    method is POST, PUT or PATCH, and no body when it is GET or DELETE;
    in the latter case the body is not even marshalled, so that it
    cannot raise an error: the request goes out and an answer that can
    be read is returned. *)
Theorem CallAPI_body_attachment {C : Type} `{!client.HTTPClient C}
    (c : client.APIClient C) (method url accessToken : string)
    (body : gmap string Value) (s : State) :
  method ∈ ["GET"; "POST"; "PUT"; "PATCH"; "DELETE"] →
  http.requestError method url = None →
  let out := client.CallAPI c method url accessToken (Some body) s in
  if bool_decide (method ∈ ["POST"; "PUT"; "PATCH"]) then
    match json_Marshal body with
    | inl jsonBody =>
        ∃ req, calls out.2 = calls s ++ [EvDo req]
               ∧ http.ReqMethod req = method
               ∧ http.ReqBody req = Some jsonBody
    | inr err =>
        out = (inr ("failed to marshal request body: " +:+ err), s)
    end
  else
    client.prepareBody method (Some body) = inl None
    ∧ ∃ req, calls out.2 = calls s ++ [EvDo req]
             ∧ http.ReqMethod req = method
             ∧ http.ReqBody req = None
             ∧ ∀ resp answer,
                 (client.Do (client.httpClient c) req (world s)).1
                   = inl resp →
                 http.Body resp = inl answer →
                 out.1 = inl {| client.StatusCode := http.StatusCode resp;
                                client.Body := answer;
                                client.Headers := http.RespHeader resp |}.
Proof.
  intros Hmethod Hcheck. cbv zeta.
  assert (method ≠ EmptyString) as Hne.
  { intros ->.
    repeat (apply elem_of_cons in Hmethod as [?|Hmethod]; [discriminate|]).
    by apply elem_of_nil in Hmethod. }
  case_bool_decide as Hcarries.
  - apply carriesBody_iff in Hcarries.
    destruct (json_Marshal body) as [jsonBody|err] eqn:Hmarshal.
    + assert (client.prepareBody method (Some body) = inl (Some jsonBody))
        as Hbody.
      { unfold client.prepareBody. by rewrite Hcarries, Hmarshal. }
      destruct (CallAPI_sends c method url accessToken (Some body)
                  (Some jsonBody) s Hne Hcheck Hbody)
        as (req & Hcalls & Hm & Hb & _).
      by exists req.
    + rewrite CallAPI_eq. unfold client.prepareBody.
      by rewrite Hcarries, Hmarshal.
  - assert (client.prepareBody method (Some body) = inl None) as Hbody.
    { unfold client.prepareBody.
      destruct (client.carriesBody method) eqn:Hc; [|done].
      by apply carriesBody_iff in Hc. }
    split; [done|]. by apply CallAPI_sends.
Qed.

(** C8.  When the token was obtained and the configured body of a POST,
    PUT or PATCH endpoint does not marshal, [testEndpoint] stops without
    handing a request to the HTTP client; the outcome is a failure of the
    connect stage with status code 0, and its message is
    [Request failed: ] followed by the marshalling error. *)
Theorem testEndpoint_marshal_failure {P C : Type}
    `{!auth.TokenProvider P} `{!client.HTTPClient C}
    (e : config.Endpoint) (tp : P) (api : client.APIClient C)
    (verbose : bool) (s : State) (body : gmap string Value)
    (cause : error) (token : string) :
  config.Method e ∈ ["POST"; "PUT"; "PATCH"] →
  config.RequestBody e = Some body →
  json_Marshal body = inr cause →
  tokenAnswer tp e s = (token, None) →
  let r := (testEndpoint e tp api verbose s).1 in
  let s' := (testEndpoint e tp api verbose s).2 in
  AuthSuccess r = true
  ∧ ConnectSuccess r = false
  ∧ ResponseSuccess r = false
  ∧ Success r = false
  ∧ StatusCode r = 0
  ∧ ErrorMessage r =
      "Request failed: " +:+ ("failed to marshal request body: " +:+ cause)
  ∧ httpCalls (calls s') = httpCalls (calls s)
  ∧ calls s' = calls s ++ [EvGetAccessToken (config.ClientID e)
                             (config.ClientSecret e) (config.TenantID e)
                             (config.Scope e)].
Proof.
  intros Hmethod Hbody Hmarshal Htoken. cbv zeta.
  apply carriesBody_iff in Hmethod.
  unfold tokenAnswer in Htoken.
  unfold testEndpoint. run_monad.
  destruct (time_Now (world s)) as [t0 w0]. cbn [snd] in Htoken.
  destruct (auth.GetAccessToken _ _ _ _ _ _) as [answer w1].
  cbn [fst] in Htoken. subst answer.
  rewrite CallAPI_eq. unfold client.prepareBody.
  rewrite Hbody, Hmethod, Hmarshal. cbn.
  destruct (time_Now w1). cbn.
  rewrite httpCalls_app. cbn. rewrite app_nil_r. by repeat split.
Qed.
End body_facts.

(** A POST with a body that marshals: the request carries its JSON form. *)
Lemma CallAPI_body_attachment_witness :
  let out :=
    client.CallAPI (H := fixture.runtime) (H0 := fixture.checker)
      (fixture.apiClient 200) "POST" "https://api.example.com/items"
      "mock-token-12345" (Some fixture.goodBody) fixture.start in
  ∃ req, calls out.2 = calls fixture.start ++ [EvDo req]
         ∧ http.ReqMethod req = "POST"
         ∧ http.ReqBody req
           = Some (list_byte_of_string
                     ("{" +:+ fixture.quote +:+ "test" +:+ fixture.quote
                      +:+ ":" +:+ fixture.quote +:+ "data" +:+ fixture.quote
                      +:+ "}")).
Proof.
  refine (CallAPI_body_attachment (H := fixture.runtime)
            (H0 := fixture.checker) (fixture.apiClient 200) "POST"
            "https://api.example.com/items" "mock-token-12345"
            fixture.goodBody fixture.start _ _).
  - repeat constructor.
  - reflexivity.
Defined.

(** A POST whose body holds a channel: the test stops at the marshaller. *)
Lemma testEndpoint_marshal_failure_witness :
  let e := fixture.endpoint "events" "POST" (Some fixture.badBody) in
  let run :=
    testEndpoint (H := fixture.runtime) (H0 := fixture.checker)
      e fixture.goodProvider (fixture.apiClient 200) false fixture.start in
  AuthSuccess run.1 = true
  ∧ ConnectSuccess run.1 = false
  ∧ ResponseSuccess run.1 = false
  ∧ Success run.1 = false
  ∧ StatusCode run.1 = 0
  ∧ ErrorMessage run.1 =
      "Request failed: " +:+ ("failed to marshal request body: "
                              +:+ "json: unsupported type: chan int")
  ∧ httpCalls (calls run.2) = httpCalls (calls fixture.start)
  ∧ calls run.2 =
      calls fixture.start
      ++ [EvGetAccessToken "client-id" "client-secret" "tenant-id"
            "api://app/.default"].
Proof.
  refine (testEndpoint_marshal_failure (H := fixture.runtime)
            (H0 := fixture.checker)
            (fixture.endpoint "events" "POST" (Some fixture.badBody))
            fixture.goodProvider (fixture.apiClient 200) false fixture.start
            fixture.badBody "json: unsupported type: chan int"
            "mock-token-12345" _ _ _ _).
  - repeat constructor.
  - reflexivity.
  - reflexivity.
  - reflexivity.
Defined.

(** ** The run as a whole *)

Lemma hasFailures_true_iff (results : list TestResult) :
  hasFailures results = true ↔ Exists (λ r, Success r = false) results.
Proof.
  induction results as [|r results IH]; cbn.
  - split; [discriminate|]. by intros ?%Exists_nil.
  - rewrite Exists_cons, <-IH. destruct (Success r); cbn; intuition congruence.
Qed.

Lemma hasFailures_false_iff (results : list TestResult) :
  hasFailures results = false ↔ Forall (λ r, Success r = true) results.
Proof.
  induction results as [|r results IH]; cbn.
  - split; [constructor|done].
  - rewrite Forall_cons, <-IH. destruct (Success r); cbn; intuition congruence.
Qed.

(** The percentage printed is the ratio it stands for, as soon as the
    total is not zero. *)
Lemma percent_spec (part total : Z) :
  total ≠ 0 →
  (percent part total * inject_Z total == inject_Z part * 100)%Q.
Proof.
  intros Htotal. unfold percent. field.
  intros Hzero. apply Htotal.
  unfold Qeq in Hzero. cbn in Hzero. lia.
Qed.

Section main_facts.
Context `{Runtime} `{!http.Checker} `{!http.Network}.
Context `{!config.Loader} `{!auth.Azidentity}.
Implicit Types (s : State) (verbose : bool) (cfg : config.Config).

(** [LoadConfig] opens the file and does nothing else outside. *)
Lemma LoadConfig_calls (path : string) s :
  calls (config.LoadConfig path s).2 = calls s ++ [EvOpen path].
Proof.
  unfold config.LoadConfig. run_monad.
  repeat run_step; by simplify_eq.
Qed.

(** A configuration that is loaded has passed [Validate]. *)
Lemma LoadConfig_valid (path : string) s cfg :
  (config.LoadConfig path s).1 = inl cfg →
  config.Config_Validate cfg = None.
Proof.
  unfold config.LoadConfig. run_monad.
  repeat run_step; simplify_eq; cbn; congruence.
Qed.

(** [Validate] refuses the empty list of endpoints. *)
Lemma Config_Validate_nonempty cfg :
  config.Config_Validate cfg = None →
  (0 < length (config.Endpoints cfg))%nat.
Proof.
  unfold config.Config_Validate. case_decide; [discriminate|]. lia.
Qed.

(** [main], step by step. *)
Lemma main_eq (path : string) verbose s :
  main path verbose s =
  match (config.LoadConfig path s).1 with
  | inr err =>
      ({| ExitStatus := 1; Results := []; Printed := None |},
       (config.LoadConfig path s).2)
  | inl cfg =>
      let tested :=
        testAll (config.Endpoints cfg) [] auth.NewEntraIDTokenProvider
          client.NewAPIClient verbose (config.LoadConfig path s).2 in
      ({| ExitStatus := if hasFailures tested.1 then 1 else 0;
          Results := tested.1;
          Printed := Some (printSummary tested.1) |},
       tested.2)
  end.
Proof.
  unfold main. run_monad.
  destruct (config.LoadConfig path s) as [[cfg|err] s1]; cbn [fst snd];
    [|done].
  destruct (testAll _ _ _ _ _ _) as [results s2]. cbn [fst snd].
  by destruct (hasFailures results).
Qed.

(** C9.  The exit status of [main] is 1 when the configuration does not
    load, and then no endpoint has been tested; otherwise it is 0 when
    every outcome succeeded and 1 when some outcome failed. *)
Theorem main_exit_status (path : string) verbose s :
  let run := (main path verbose s).1 in
  let s' := (main path verbose s).2 in
  match (config.LoadConfig path s).1 with
  | inr _ =>
      ExitStatus run = 1
      ∧ Results run = []
      ∧ tokenCalls (calls s') = tokenCalls (calls s)
      ∧ httpCalls (calls s') = httpCalls (calls s)
  | inl cfg =>
      Results run =
        (testAll (config.Endpoints cfg) [] auth.NewEntraIDTokenProvider
           client.NewAPIClient verbose (config.LoadConfig path s).2).1
      ∧ (ExitStatus run = 0
         ↔ Forall (λ r, Success r = true) (Results run))
      ∧ (ExitStatus run = 1
         ↔ Exists (λ r, Success r = false) (Results run))
  end.
Proof.
  cbv zeta. rewrite main_eq.
  destruct (config.LoadConfig path s).1 as [cfg|err] eqn:Hload; cbn.
  - split; [done|].
    rewrite <-hasFailures_false_iff, <-hasFailures_true_iff.
    by destruct (hasFailures _).
  - rewrite LoadConfig_calls, tokenCalls_app, httpCalls_app. cbn.
    by rewrite !app_nil_r.
Qed.

(** C10.  When the configuration has loaded, and so has passed
    [Validate], the summary is computed over as many outcomes as there
    are endpoints, at least one: the divisor of the two percentages is
    not zero, and each percentage is the ratio it stands for. *)
Theorem summary_divisor_nonzero (path : string) verbose s cfg :
  (config.LoadConfig path s).1 = inl cfg →
  ∃ sm,
    Printed (main path verbose s).1 = Some sm
    ∧ Total sm = Z.of_nat (length (config.Endpoints cfg))
    ∧ Total sm ≠ 0
    ∧ (PassedPercent sm * inject_Z (Total sm)
       == inject_Z (Passed sm) * 100)%Q
    ∧ (FailedPercent sm * inject_Z (Total sm)
       == inject_Z (Failed sm) * 100)%Q.
Proof.
  intros Hload.
  pose proof (Config_Validate_nonempty cfg (LoadConfig_valid path s cfg Hload))
    as Hlen.
  rewrite main_eq, Hload. cbn [fst Printed]. eexists. split; [done|].
  unfold printSummary. cbn [Total PassedPercent FailedPercent Passed Failed].
  rewrite testAll_length.
  split; [done|]. split; [lia|].
  split; apply percent_spec; lia.
Qed.
End main_facts.

(** The run on the configuration of the fixture prints a summary. *)
Lemma summary_divisor_nonzero_witness :
  ∃ sm,
    Printed (main (H := fixture.runtime) (H0 := fixture.checker)
               (H1 := fixture.network) (H2 := fixture.loader)
               (H3 := fixture.azidentity) "config.json" false
               fixture.start).1 = Some sm
    ∧ Total sm = 1
    ∧ Total sm ≠ 0
    ∧ (PassedPercent sm * inject_Z (Total sm)
       == inject_Z (Passed sm) * 100)%Q
    ∧ (FailedPercent sm * inject_Z (Total sm)
       == inject_Z (Failed sm) * 100)%Q.
Proof.
  refine (summary_divisor_nonzero (H := fixture.runtime)
            (H0 := fixture.checker) (H1 := fixture.network)
            (H2 := fixture.loader) (H3 := fixture.azidentity)
            "config.json" false fixture.start
            {| config.Endpoints := [fixture.endpoint "items" "GET" None] |} _).
  reflexivity.
Defined.


(** ** Scenarios *)

Section scenarios.
#[local] Existing Instance fixture.runtime.
#[local] Existing Instance fixture.checker.

(** The two edges of the success range, seen in the outcome. *)
Example outcome_199_300_fail_200_299_pass :
  map (λ status,
         ResponseSuccess
           (testEndpoint (fixture.endpoint "items" "GET" None)
              fixture.goodProvider (fixture.apiClient status) false
              fixture.start).1)
      [199; 200; 299; 300]
  = [false; true; true; false].
Proof. reflexivity. Qed.

(** A token provider that fails: the outcome names the stage, and the
    HTTP client is not called. *)
Example outcome_auth_failure :
  testEndpoint (fixture.endpoint "items" "GET" None) fixture.failingProvider
    (fixture.apiClient 200) false fixture.start =
  ({| EndpointName := "items";
      ErrorMessage := "Authentication failed: context deadline exceeded";
      Duration := 1; StatusCode := 0; Success := false;
      AuthSuccess := false; ConnectSuccess := false;
      ResponseSuccess := false |},
   {| world := 2;
      calls := [EvGetAccessToken "client-id" "client-secret" "tenant-id"
                  "api://app/.default"] |}).
Proof. reflexivity. Qed.

(** A deadline that passes during the HTTP call: the first stage has
    succeeded, the second has not. *)
Example outcome_deadline :
  (testEndpoint (fixture.endpoint "items" "GET" None) fixture.goodProvider
     (client.NewAPIClientWithHTTPClient fixture.unreachable (30 * Second))
     false fixture.start).1 =
  {| EndpointName := "items";
     ErrorMessage :=
       "Request failed: failed to execute request: context deadline exceeded";
     Duration := 1; StatusCode := 0; Success := false;
     AuthSuccess := true; ConnectSuccess := false;
     ResponseSuccess := false |}.
Proof. reflexivity. Qed.

(** Two endpoints, the first answered with 404 and the second with 201:
    both are tested, one passes, and the failure is a response failure. *)
Example run_404_then_201 :
  let results :=
    (testAll [fixture.endpoint "read" "GET" None;
              fixture.endpoint "create" "POST" (Some fixture.goodBody)]
       [] fixture.goodProvider
       (client.NewAPIClientWithHTTPClient fixture.router (30 * Second))
       false fixture.start).1 in
  map StatusCode results = [404; 201]
  ∧ map Success results = [false; true]
  ∧ hasFailures results = true
  ∧ (let sm := printSummary results in
     (Total sm, Passed sm, Failed sm) = (2, 1, 1)
     ∧ (AuthFailures sm, ConnectFailures sm, ResponseFailures sm) = (0, 0, 1)).
Proof. vm_compute. by repeat split. Qed.

(** A run on a configuration file that is not there ends with status 1
    and has tested nothing. *)
Example run_missing_config :
  main (H1 := fixture.network) (H2 := fixture.loader)
    (H3 := fixture.azidentity) "missing.json" false fixture.start =
  ({| ExitStatus := 1; Results := []; Printed := None |},
   {| world := 0; calls := [EvOpen "missing.json"] |}).
Proof. reflexivity. Qed.

(** A run on the configuration of the fixture ends with status 0. *)
Example run_good_config :
  let run :=
    (main (H1 := fixture.network) (H2 := fixture.loader)
       (H3 := fixture.azidentity) "config.json" false fixture.start).1 in
  ExitStatus run = 0 ∧ map Success (Results run) = [true].
Proof. vm_compute. by split. Qed.
End scenarios.


(** * More properties of the code *)

(** ** The outcome of one test *)

Section outcome_facts.
Context `{Runtime} `{!http.Checker}.
Context {P C : Type} `{!auth.TokenProvider P} `{!client.HTTPClient C}.
Implicit Types (e : config.Endpoint) (tp : P) (api : client.APIClient C).
Implicit Types (s : State) (verbose : bool).

(** [testEndpoint] by its three exits. *)
Lemma testEndpoint_cases e tp api verbose s :
  let out := testEndpoint e tp api verbose s in
  match (tokenAnswer tp e s).2 with
  | Some err =>
      ∃ d, out.1 = authFailed_result (config.Name e) err d
           ∧ calls out.2 = calls (stateAfterToken tp e s)
  | None =>
      let called :=
        client.CallAPI api (config.Method e) (config.URL e)
          (tokenAnswer tp e s).1 (config.RequestBody e)
          (stateAfterToken tp e s) in
      match called.1 with
      | inr err =>
          ∃ d, out.1 = requestFailed_result (config.Name e) err d
               ∧ calls out.2 = calls called.2
      | inl response =>
          ∃ d, out.1 = answered_result (config.Name e)
                         (client.StatusCode response) d
               ∧ calls out.2 = calls called.2
      end
  end.
Proof.
  cbv zeta. unfold tokenAnswer, stateAfterToken, testEndpoint. run_monad.
  destruct (time_Now (world s)) as [t0 w0]. cbn [fst snd].
  destruct (auth.GetAccessToken _ _ _ _ _ _) as [[token [err|]] w1];
    cbn [fst snd].
  - cbn. destruct (time_Now w1) as [t1 w2]. cbn. by eexists.
  - destruct (client.CallAPI _ _ _ _ _ _) as [[response|err] s2];
      cbn [fst snd].
    + destruct (time_Now (world s2)) as [t1 w2].
      unfold answered_result, client.IsSuccessStatusCode.
      destruct ((200 <=? client.StatusCode response)
                && (client.StatusCode response <? 300)); cbn; by eexists.
    + destruct (time_Now (world s2)) as [t1 w2]. cbn. by eexists.
Qed.

(** An outcome has one of the three shapes. *)
Lemma testEndpoint_shape e tp api verbose s :
  let r := (testEndpoint e tp api verbose s).1 in
  (∃ err d, r = authFailed_result (config.Name e) err d)
  ∨ (∃ err d, r = requestFailed_result (config.Name e) err d)
  ∨ (∃ code d, r = answered_result (config.Name e) code d).
Proof.
  cbv zeta. pose proof (testEndpoint_cases e tp api verbose s) as Hc.
  cbv zeta in Hc.
  destruct (tokenAnswer tp e s).2 as [err|].
  - destruct Hc as (d & -> & _). left. by exists err, d.
  - destruct (client.CallAPI _ _ _ _ _ _).1 as [response|err].
    + destruct Hc as (d & -> & _). right. right. by eexists _, d.
    + destruct Hc as (d & -> & _). right. left. by exists err, d.
Qed.

(** X1.  The overall flag of an outcome is the conjunction of its three
    stage flags. *)
Theorem testEndpoint_success_is_all_stages e tp api verbose s :
  let r := (testEndpoint e tp api verbose s).1 in
  Success r = AuthSuccess r && ConnectSuccess r && ResponseSuccess r.
Proof.
  cbv zeta.
  destruct (testEndpoint_shape e tp api verbose s)
    as [(err & d & ->)|[(err & d & ->)|(code & d & ->)]]; cbn; done.
Qed.

(** X2.  The error message of an outcome is empty exactly when the test
    succeeded: every failure leaves a message. *)
Theorem testEndpoint_message_iff_failure e tp api verbose s :
  let r := (testEndpoint e tp api verbose s).1 in
  ErrorMessage r = EmptyString ↔ Success r = true.
Proof.
  cbv zeta.
  destruct (testEndpoint_shape e tp api verbose s)
    as [(err & d & ->)|[(err & d & ->)|(code & d & ->)]]; cbn;
    try (split; discriminate).
  by destruct ((200 <=? code) && (code <? 300)).
Qed.

(** X3.  The status code of an outcome is 0 unless the HTTP exchange
    completed; in particular it is 0 when the answer of the server could
    not be read. *)
Theorem testEndpoint_status_zero_unless_connected e tp api verbose s :
  let r := (testEndpoint e tp api verbose s).1 in
  ConnectSuccess r = false → StatusCode r = 0.
Proof.
  cbv zeta.
  destruct (testEndpoint_shape e tp api verbose s)
    as [(err & d & ->)|[(err & d & ->)|(code & d & ->)]]; cbn; done.
Qed.
End outcome_facts.

(** A test that fails at the token has status code 0. *)
Lemma testEndpoint_status_zero_unless_connected_witness :
  StatusCode
    (testEndpoint (H := fixture.runtime) (H0 := fixture.checker)
       (fixture.endpoint "items" "GET" None) fixture.failingProvider
       (fixture.apiClient 200) false fixture.start).1 = 0.
Proof.
  apply (testEndpoint_status_zero_unless_connected (H := fixture.runtime)
           (H0 := fixture.checker)).
  reflexivity.
Defined.

(** ** The exchange with the server *)

Section exchange_facts.
Context `{Runtime} `{!http.Checker}.

(** A request that is built goes to the URL it was asked for, with the
    method it was asked for, GET standing for the empty method. *)
Lemma buildRequest_target (method url accessToken : string)
    (requestBody : option (gmap string Value)) (bodyReader : option bytes)
    (req : http.Request) :
  client.buildRequest method url accessToken requestBody bodyReader
    = inl req →
  http.ReqURL req = url
  ∧ http.ReqMethod req = (if decide (method = "") then "GET" else method).
Proof.
  unfold client.buildRequest, http.NewRequestWithContext.
  destruct (http.requestError _ url); [discriminate|].
  destruct requestBody; by intros [= <-].
Qed.

(** The header map of a request that is built. *)
Lemma buildRequest_header_map (method url accessToken : string)
    (requestBody : option (gmap string Value)) (bodyReader : option bytes)
    (req : http.Request) :
  client.buildRequest method url accessToken requestBody bodyReader
    = inl req →
  http.ReqHeader req =
    match requestBody with
    | Some _ =>
        <["Content-Type" := ["application/json"]]>
          {["Authorization" := ["Bearer " +:+ accessToken]]}
    | None => {["Authorization" := ["Bearer " +:+ accessToken]]}
    end.
Proof.
  unfold client.buildRequest, http.NewRequestWithContext.
  destruct (http.requestError _ url); [discriminate|].
  destruct requestBody; intros [= <-]; cbn; unfold http.Header_Set;
    by rewrite insert_empty.
Qed.

(** The request that [CallAPI] has logged is the one it has built. *)
Lemma CallAPI_logged_request {C : Type} `{!client.HTTPClient C}
    (c : client.APIClient C) (method url accessToken : string)
    (requestBody : option (gmap string Value)) (s : State)
    (req : http.Request) :
  calls (client.CallAPI c method url accessToken requestBody s).2
    = calls s ++ [EvDo req] →
  ∃ bodyReader,
    client.prepareBody method requestBody = inl bodyReader
    ∧ client.buildRequest method url accessToken requestBody bodyReader
      = inl req.
Proof.
  intros Hlog.
  pose proof (CallAPI_calls c method url accessToken requestBody s) as Hcalls.
  cbv zeta in Hcalls.
  assert (calls s ≠ calls s ++ [EvDo req]) as Hgrow.
  { intros Heq. apply (f_equal length) in Heq.
    rewrite length_app in Heq. cbn in Heq. lia. }
  destruct (client.prepareBody method requestBody) as [bodyReader|err];
    [|by rewrite Hcalls in Hlog].
  exists bodyReader. split; [done|].
  destruct (client.buildRequest method url accessToken requestBody bodyReader)
    as [req'|err]; [|by rewrite Hcalls in Hlog].
  rewrite Hcalls in Hlog. by apply app_inv_head in Hlog as [= ->].
Qed.

(** X4.  The request that [CallAPI] hands to the HTTP client goes to the
    URL it was given and carries the [Authorization] header with the
    token, the [Content-Type] header when the configured body is not
    nil, and no header besides. *)
Theorem CallAPI_sends_no_other_header {C : Type} `{!client.HTTPClient C}
    (c : client.APIClient C) (method url accessToken : string)
    (requestBody : option (gmap string Value)) (s : State)
    (req : http.Request) :
  calls (client.CallAPI c method url accessToken requestBody s).2
    = calls s ++ [EvDo req] →
  http.ReqURL req = url
  ∧ http.ReqHeader req =
      match requestBody with
      | Some _ =>
          <["Content-Type" := ["application/json"]]>
            {["Authorization" := ["Bearer " +:+ accessToken]]}
      | None => {["Authorization" := ["Bearer " +:+ accessToken]]}
      end.
Proof.
  intros Hlog.
  destruct (CallAPI_logged_request c method url accessToken requestBody s req
              Hlog) as (bodyReader & _ & Hreq).
  split.
  - by eapply buildRequest_target.
  - by eapply buildRequest_header_map.
Qed.

(** X5.  A request that [net/http] refuses is never sent: [CallAPI]
    returns without touching the world, with the error of the marshaller
    when the body did not marshal, and otherwise with
    [failed to create request: ] followed by the cause. *)
Theorem CallAPI_refused_request {C : Type} `{!client.HTTPClient C}
    (c : client.APIClient C) (method url accessToken : string)
    (requestBody : option (gmap string Value)) (s : State) (cause : error) :
  http.requestError (if decide (method = "") then "GET" else method) url
    = Some cause →
  client.CallAPI c method url accessToken requestBody s =
  (inr match client.prepareBody method requestBody with
       | inr err => err
       | inl _ => "failed to create request: " +:+ cause
       end, s).
Proof.
  intros Hrefused. rewrite CallAPI_eq.
  destruct (client.prepareBody method requestBody) as [bodyReader|err];
    [|done].
  unfold client.buildRequest, http.NewRequestWithContext.
  by rewrite Hrefused.
Qed.
End exchange_facts.

(** The request of a POST with a body has the two headers. *)
Lemma CallAPI_sends_no_other_header_witness :
  let req :=
    {| http.ReqMethod := "POST";
       http.ReqURL := "https://api.example.com/items";
       http.ReqHeader :=
         <["Content-Type" := ["application/json"]]>
           {["Authorization" := ["Bearer " +:+ "mock-token-12345"]]};
       http.ReqBody :=
         match fixture.marshal fixture.goodBody with
         | inl jsonBody => Some jsonBody
         | inr _ => None
         end |} in
  calls (client.CallAPI (H := fixture.runtime) (H0 := fixture.checker)
           (fixture.apiClient 200) "POST" "https://api.example.com/items"
           "mock-token-12345" (Some fixture.goodBody) fixture.start).2
    = calls fixture.start ++ [EvDo req]
  ∧ http.ReqURL req = "https://api.example.com/items"
  ∧ http.ReqHeader req =
      <["Content-Type" := ["application/json"]]>
        {["Authorization" := ["Bearer " +:+ "mock-token-12345"]]}.
Proof.
  intros req.
  assert (calls (client.CallAPI (H := fixture.runtime)
                   (H0 := fixture.checker) (fixture.apiClient 200) "POST"
                   "https://api.example.com/items" "mock-token-12345"
                   (Some fixture.goodBody) fixture.start).2
          = calls fixture.start ++ [EvDo req]) as Hlog.
  { vm_compute. reflexivity. }
  split; [exact Hlog|].
  exact (CallAPI_sends_no_other_header (H := fixture.runtime)
           (H0 := fixture.checker) (fixture.apiClient 200) "POST"
           "https://api.example.com/items" "mock-token-12345"
           (Some fixture.goodBody) fixture.start req Hlog).
Defined.

(** The URL of the tests that does not parse. *)
Lemma CallAPI_refused_request_witness :
  client.CallAPI (H := fixture.runtime) (H0 := fixture.checker)
    (fixture.apiClient 200) "GET" "://invalid-url" "test-token" None
    fixture.start =
  (inr ("failed to create request: "
        +:+ "parse ://invalid-url: missing protocol scheme"),
   fixture.start).
Proof.
  apply (CallAPI_refused_request (H := fixture.runtime)
           (H0 := fixture.checker) (fixture.apiClient 200) "GET"
           "://invalid-url" "test-token" None fixture.start
           "parse ://invalid-url: missing protocol scheme").
  reflexivity.
Defined.

(** ** One test, seen from outside *)

Section test_log_facts.
Context `{Runtime} `{!http.Checker}.
Context {P C : Type} `{!auth.TokenProvider P} `{!client.HTTPClient C}.
Implicit Types (e : config.Endpoint) (tp : P) (api : client.APIClient C).
Implicit Types (s : State) (verbose : bool).

(** What [CallAPI] adds to the log: nothing, or the request it built. *)
Lemma CallAPI_log (c : client.APIClient C) (method url accessToken : string)
    (requestBody : option (gmap string Value)) s :
  let out := client.CallAPI c method url accessToken requestBody s in
  ∃ sent : list http.Request,
    calls out.2 = calls s ++ map EvDo sent
    ∧ (length sent ≤ 1)%nat
    ∧ (∀ response, out.1 = inl response → length sent = 1%nat)
    ∧ Forall (λ req,
                ∃ bodyReader,
                  client.prepareBody method requestBody = inl bodyReader
                  ∧ client.buildRequest method url accessToken requestBody
                      bodyReader = inl req) sent.
Proof.
  cbv zeta. rewrite CallAPI_eq.
  destruct (client.prepareBody method requestBody) as [bodyReader|err].
  2: { exists []. cbn. rewrite app_nil_r. repeat split; [lia|done|done]. }
  destruct (client.buildRequest method url accessToken requestBody bodyReader)
    as [req|err] eqn:Hreq.
  2: { exists []. cbn. rewrite app_nil_r. repeat split; [lia|done|done]. }
  destruct (client.Do (client.httpClient c) req (world s)) as [answer w].
  exists [req]. cbn. repeat split; [lia|..].
  apply Forall_singleton. by exists bodyReader.
Qed.

(** What one test adds to the log. *)
Lemma testEndpoint_log e tp api verbose s :
  let out := testEndpoint e tp api verbose s in
  ∃ sent : list http.Request,
    calls out.2 =
      calls s ++ EvGetAccessToken (config.ClientID e) (config.ClientSecret e)
                   (config.TenantID e) (config.Scope e) :: map EvDo sent
    ∧ (length sent ≤ 1)%nat
    ∧ (AuthSuccess out.1 = false → sent = [])
    ∧ (ConnectSuccess out.1 = true → length sent = 1%nat)
    ∧ (sent ≠ [] → (tokenAnswer tp e s).2 = None)
    ∧ Forall (λ req, http.ReqURL req = config.URL e
                     ∧ carriesToken req (tokenAnswer tp e s).1) sent.
Proof.
  cbv zeta. pose proof (testEndpoint_cases e tp api verbose s) as Hc.
  cbv zeta in Hc.
  destruct (tokenAnswer tp e s).2 as [err|].
  - destruct Hc as (d & -> & ->). exists []. cbn.
    repeat split; [lia|done|done|constructor].
  - match type of Hc with
    | context [client.CallAPI ?c ?m ?u ?t ?b ?st] =>
        destruct (CallAPI_log c m u t b st)
          as (sent & Hlog & Hlen & Hone & Hsent);
        destruct (client.CallAPI c m u t b st) as [[response|err] s2]
    end; cbn [fst snd] in *.
    + destruct Hc as (d & -> & ->). exists sent. rewrite Hlog. cbn.
      rewrite <-app_assoc. cbn.
      split; [done|]. split; [done|]. split; [done|].
      split; [intros _; by eapply Hone|]. split; [done|].
      eapply Forall_impl; [exact Hsent|].
      intros req (bodyReader & _ & Hreq). split.
      * by eapply buildRequest_target.
      * by eapply buildRequest_headers.
    + destruct Hc as (d & -> & ->). exists sent. rewrite Hlog. cbn.
      rewrite <-app_assoc. cbn.
      split; [done|]. split; [done|]. split; [done|].
      split; [done|]. split; [done|].
      eapply Forall_impl; [exact Hsent|].
      intros req (bodyReader & _ & Hreq). split.
      * by eapply buildRequest_target.
      * by eapply buildRequest_headers.
Qed.

(** X6.  One test asks for one token and sends at most one request, none
    when the token was refused and exactly one when the exchange
    completed; a request that is sent goes to the URL of the endpoint and
    carries the token the provider has returned. *)
Theorem testEndpoint_one_token_one_request e tp api verbose s :
  let out := testEndpoint e tp api verbose s in
  ∃ sent : list http.Request,
    calls out.2 =
      calls s ++ EvGetAccessToken (config.ClientID e) (config.ClientSecret e)
                   (config.TenantID e) (config.Scope e) :: map EvDo sent
    ∧ (length sent ≤ 1)%nat
    ∧ (AuthSuccess out.1 = false → sent = [])
    ∧ (ConnectSuccess out.1 = true → length sent = 1%nat)
    ∧ Forall (λ req, http.ReqURL req = config.URL e
                     ∧ carriesToken req (tokenAnswer tp e s).1) sent.
Proof.
  cbv zeta.
  destruct (testEndpoint_log e tp api verbose s)
    as (sent & Hlog & Hlen & Hauth & Hconnect & _ & Hsent).
  by exists sent.
Qed.

(** X7.  When the token was obtained and the request is built, the
    outcome is decided by the answer of the HTTP client: an error of the
    client, or an answer whose body cannot be read, is a failure of the
    connect stage with status code 0; any other answer completes the
    exchange, with its status code and the class of that code. *)
Theorem testEndpoint_outcome_of_exchange e tp api verbose s
    (token : string) (bodyReader : option bytes) (req : http.Request) :
  tokenAnswer tp e s = (token, None) →
  client.prepareBody (config.Method e) (config.RequestBody e)
    = inl bodyReader →
  client.buildRequest (config.Method e) (config.URL e) token
    (config.RequestBody e) bodyReader = inl req →
  ∃ d,
    (testEndpoint e tp api verbose s).1 =
    match (client.Do (client.httpClient api) req
             (world (stateAfterToken tp e s))).1 with
    | inr cause =>
        requestFailed_result (config.Name e)
          ("failed to execute request: " +:+ cause) d
    | inl resp =>
        match http.Body resp with
        | inr cause =>
            requestFailed_result (config.Name e)
              ("failed to read response body: " +:+ cause) d
        | inl _ =>
            answered_result (config.Name e) (http.StatusCode resp) d
        end
    end.
Proof.
  intros Htoken Hbody Hreq.
  pose proof (testEndpoint_cases e tp api verbose s) as Hc.
  cbv zeta in Hc. rewrite Htoken in Hc. cbn [fst snd] in Hc.
  rewrite CallAPI_eq, Hbody, Hreq in Hc.
  destruct (client.Do (client.httpClient api) req
              (world (stateAfterToken tp e s))) as [[resp|cause] w];
    cbn [fst snd] in *.
  - destruct (http.Body resp) as [answer|cause].
    + destruct Hc as (d & -> & _). by exists d.
    + destruct Hc as (d & -> & _). by exists d.
  - destruct Hc as (d & -> & _). by exists d.
Qed.
End test_log_facts.

(** A server that answers 404: the exchange completes, the test fails. *)
Lemma testEndpoint_outcome_of_exchange_witness :
  ∃ d,
    (testEndpoint (H := fixture.runtime) (H0 := fixture.checker)
       (fixture.endpoint "items" "GET" None) fixture.goodProvider
       (fixture.apiClient 404) false fixture.start).1
    = answered_result "items" 404 d.
Proof.
  refine (testEndpoint_outcome_of_exchange (H := fixture.runtime)
            (H0 := fixture.checker) (fixture.endpoint "items" "GET" None)
            fixture.goodProvider (fixture.apiClient 404) false fixture.start
            "mock-token-12345" None
            {| http.ReqMethod := "GET";
               http.ReqURL := "https://api.example.com/items";
               http.ReqHeader :=
                 http.Header_Set ∅ "Authorization"
                   ("Bearer " +:+ "mock-token-12345");
               http.ReqBody := None |} _ _ _).
  - reflexivity.
  - reflexivity.
  - reflexivity.
Defined.

(** ** Validation of the configuration *)

Section validation_facts.
Context `{Runtime}.
Implicit Types (e : config.Endpoint) (c : config.Config).
Implicit Types (es pre post : list config.Endpoint).

(** The table of methods holds the five methods and nothing else. *)
Lemma validMethods_iff (method : string) :
  default false (config.validMethods !! method) = true
  ↔ method ∈ ["GET"; "POST"; "PUT"; "PATCH"; "DELETE"].
Proof.
  unfold config.validMethods. cbn [list_to_map foldr fst snd uncurry].
  rewrite !elem_of_cons, elem_of_nil.
  rewrite !lookup_insert, lookup_empty.
  repeat case_decide; cbn; subst; intuition congruence.
Qed.

Lemma Endpoint_Validate_None_iff e :
  config.Endpoint_Validate e = None ↔ wellFormed e.
Proof.
  unfold config.Endpoint_Validate, wellFormed.
  rewrite <-validMethods_iff.
  assert (config.Method e = EmptyString →
          default false (config.validMethods !! config.Method e) = false)
    as Hempty by (by intros ->).
  destruct (default false (config.validMethods !! config.Method e));
    repeat case_decide; cbn;
    (split; [try discriminate; by intros _
            |intros (?&?&?&?&?&?&?); try done; try congruence;
             by specialize (Hempty ltac:(done))]).
Qed.

(** X8.  [Endpoint.Validate] accepts an endpoint exactly when none of its
    seven required fields is empty and its method is, letter for letter,
    one of GET, POST, PUT, PATCH and DELETE; the request body plays no
    part. *)
Theorem Endpoint_Validate_accepts_iff e :
  config.Endpoint_Validate e = None
  ↔ config.Name e ≠ EmptyString
    ∧ config.URL e ≠ EmptyString
    ∧ config.Method e ∈ ["GET"; "POST"; "PUT"; "PATCH"; "DELETE"]
    ∧ config.ClientID e ≠ EmptyString
    ∧ config.ClientSecret e ≠ EmptyString
    ∧ config.TenantID e ≠ EmptyString
    ∧ config.Scope e ≠ EmptyString.
Proof. apply Endpoint_Validate_None_iff. Qed.

(** The loop of [Config.Validate] on a list that begins with valid
    endpoints. *)
Lemma validateFrom_app pre es : ∀ i,
  Forall (λ e, config.Endpoint_Validate e = None) pre →
  config.validateFrom i (pre ++ es)
  = config.validateFrom (i + Z.of_nat (length pre)) es.
Proof.
  induction pre as [|e pre IH]; intros i Hpre; cbn [app length].
  - f_equal. lia.
  - apply Forall_cons in Hpre as [He Hpre].
    cbn [config.validateFrom]. rewrite He, IH by done. f_equal. lia.
Qed.

Lemma validateFrom_None_iff es : ∀ i,
  config.validateFrom i es = None
  ↔ Forall (λ e, config.Endpoint_Validate e = None) es.
Proof.
  induction es as [|e es IH]; intros i; cbn [config.validateFrom].
  - split; [constructor|done].
  - rewrite Forall_cons.
    destruct (config.Endpoint_Validate e) as [err|].
    + split; [discriminate|]. by intros [? _].
    + rewrite IH. tauto.
Qed.

(** X9.  [Config.Validate] accepts a configuration exactly when it has at
    least one endpoint and [Endpoint.Validate] accepts every one of
    them. *)
Theorem Config_Validate_accepts_iff c :
  config.Config_Validate c = None
  ↔ config.Endpoints c ≠ []
    ∧ Forall (λ e, config.Endpoint_Validate e = None) (config.Endpoints c).
Proof.
  unfold config.Config_Validate.
  destruct (config.Endpoints c) as [|e es] eqn:Hes.
  - cbn. split; [discriminate|]. by intros [? _].
  - rewrite decide_False by done. rewrite validateFrom_None_iff.
    split; [by intros ?|by intros [_ ?]].
Qed.

Lemma string_append_assoc (a b c : string) :
  (a +:+ b) +:+ c = a +:+ (b +:+ c).
Proof.
  induction a as [|x a IH]; [done|].
  change (String x ((a +:+ b) +:+ c) = String x (a +:+ (b +:+ c))).
  by rewrite IH.
Qed.

(** X10.  [Config.Validate] reports the first endpoint that
    [Endpoint.Validate] refuses, by its index counted from 0 and its name,
    followed by the error of that endpoint; the endpoints after it are
    not looked at. *)
Theorem Config_Validate_first_invalid c pre e post (err : error) :
  config.Endpoints c = pre ++ e :: post →
  Forall (λ e, config.Endpoint_Validate e = None) pre →
  config.Endpoint_Validate e = Some err →
  config.Config_Validate c =
  Some ("endpoint " +:+ fmt_d (Z.of_nat (length pre)) +:+ " ("
        +:+ config.Name e +:+ "): " +:+ err).
Proof.
  intros Hes Hpre He. unfold config.Config_Validate. rewrite Hes.
  rewrite decide_False by (rewrite length_app; cbn; lia).
  rewrite validateFrom_app by done.
  cbn [config.validateFrom]. rewrite He. unfold wrap.
  rewrite Z.add_0_l. f_equal.
  by rewrite !string_append_assoc.
Qed.
End validation_facts.

(** The second endpoint of two has a method outside the five. *)
Lemma Config_Validate_first_invalid_witness :
  config.Config_Validate (H := fixture.runtime)
    {| config.Endpoints := [fixture.endpoint "read" "GET" None;
                            fixture.endpoint "probe" "HEAD" None] |}
  = Some ("endpoint " +:+ fmt_d (Z.of_nat 1) +:+ " (" +:+ "probe" +:+ "): "
          +:+ ("invalid HTTP method: " +:+ "HEAD"
               +:+ " (must be GET, POST, PUT, PATCH, or DELETE)")).
Proof.
  refine (Config_Validate_first_invalid (H := fixture.runtime)
            {| config.Endpoints := [fixture.endpoint "read" "GET" None;
                                    fixture.endpoint "probe" "HEAD" None] |}
            [fixture.endpoint "read" "GET" None]
            (fixture.endpoint "probe" "HEAD" None) [] _ _ _ _).
  - reflexivity.
  - repeat constructor.
  - reflexivity.
Defined.

(** ** Loading the configuration *)

Section loading_facts.
Context `{Runtime} `{!config.Loader}.

(** X11.  A configuration that [LoadConfig] returns is the one the
    decoder has read from the file, unchanged; it has at least one
    endpoint and all its endpoints are well-formed.  The file is opened
    once, and nothing else outside the process is touched. *)
Theorem LoadConfig_returns_validated (filePath : string) (s : State)
    (cfg : config.Config) :
  (config.LoadConfig filePath s).1 = inl cfg →
  (∃ content,
     (config.os_Open filePath (world s)).1 = inl content
     ∧ config.json_Decode content = inl cfg)
  ∧ config.Endpoints cfg ≠ []
  ∧ Forall wellFormed (config.Endpoints cfg)
  ∧ (config.LoadConfig filePath s).2 =
      {| world := (config.os_Open filePath (world s)).2;
         calls := calls s ++ [EvOpen filePath] |}.
Proof.
  unfold config.LoadConfig. run_monad.
  destruct (config.os_Open filePath (world s)) as [[content|err] w];
    cbn [fst snd]; [|discriminate].
  destruct (config.json_Decode content) as [decoded|err] eqn:Hdecode;
    cbn [fst snd]; [|discriminate].
  destruct (config.Config_Validate decoded) as [err|] eqn:Hvalid;
    cbn [fst snd]; [discriminate|].
  intros [= ->]. split; [by exists content|].
  unfold config.Config_Validate in Hvalid.
  case_decide as Hlen; [discriminate|].
  apply validateFrom_None_iff in Hvalid.
  split; [by destruct (config.Endpoints cfg)|].
  split; [|done].
  eapply Forall_impl; [exact Hvalid|].
  intros e. apply Endpoint_Validate_None_iff.
Qed.
End loading_facts.

(** The configuration file of the fixture loads. *)
Lemma LoadConfig_returns_validated_witness :
  let cfg := {| config.Endpoints := [fixture.endpoint "items" "GET" None] |} in
  (∃ content,
     (config.os_Open (Loader := fixture.loader) "config.json"
        (world fixture.start)).1 = inl content
     ∧ config.json_Decode (Loader := fixture.loader) content = inl cfg)
  ∧ config.Endpoints cfg ≠ []
  ∧ Forall (wellFormed (H := fixture.runtime)) (config.Endpoints cfg)
  ∧ (config.LoadConfig (H0 := fixture.loader) "config.json"
       fixture.start).2 =
      {| world := (config.os_Open (Loader := fixture.loader) "config.json"
                     (world fixture.start)).2;
         calls := calls fixture.start ++ [EvOpen "config.json"] |}.
Proof.
  intros cfg.
  apply (LoadConfig_returns_validated (H := fixture.runtime)
           (H0 := fixture.loader) "config.json" fixture.start cfg).
  reflexivity.
Defined.

(** ** The token provider *)

Section provider_facts.
Context `{Runtime} `{!auth.Azidentity}.

(** X12.  [EntraIDTokenProvider.GetAccessToken] returns either a
    non-empty token and no error, or the empty token and an error, never
    a token together with an error.  It asks the identity provider for
    the one scope it was given; when the credential cannot be created
    it returns without having reached the identity provider. *)
Theorem EntraID_token_xor_error (p : auth.EntraIDTokenProvider)
    (clientID clientSecret tenantID scope : string) (w : World) :
  let out := auth.GetAccessToken p clientID clientSecret tenantID scope w in
  ((out.1.2 = None ∧ out.1.1 ≠ EmptyString)
   ∨ (out.1.1 = EmptyString ∧ is_Some out.1.2))
  ∧ match auth.NewClientSecretCredential tenantID clientID clientSecret with
    | inr cause =>
        out = ((EmptyString, Some ("failed to create credential: "
                                   +:+ cause)), w)
    | inl credential =>
        out.2 = (auth.GetToken credential [scope] w).2
        ∧ match (auth.GetToken credential [scope] w).1 with
          | inr cause =>
              out.1 = (EmptyString, Some ("failed to acquire token: "
                                          +:+ cause))
          | inl token =>
              out.1 = if decide (token = EmptyString)
                      then (EmptyString, Some "received empty token")
                      else (token, None)
          end
    end.
Proof.
  cbv zeta. unfold auth.GetAccessToken, auth.EntraID_GetAccessToken.
  destruct (auth.NewClientSecretCredential tenantID clientID clientSecret)
    as [credential|cause]; cbn [fst snd].
  - destruct (auth.GetToken credential [scope] w) as [[token|cause] w'];
      cbn [fst snd].
    + case_decide; cbn [fst snd]; (split; [|done]); [right|left]; eauto.
    + split; [|done]. right. eauto.
  - split; [|done]. right. eauto.
Qed.
End provider_facts.

(** ** The summary as a whole *)

Lemma tally_nonneg (b : Bucket) (results : list TestResult) :
  0 ≤ tally b results.
Proof. unfold tally. lia. Qed.

Lemma tally_app (b : Bucket) (rs1 rs2 : list TestResult) :
  tally b (rs1 ++ rs2) = tally b rs1 + tally b rs2.
Proof. unfold tally. rewrite filter_app, length_app. lia. Qed.

(** The counts of [printSummary], by bucket. *)
Lemma printSummary_counts (results : list TestResult) :
  Total (printSummary results) = Z.of_nat (length results)
  ∧ Passed (printSummary results) = tally Pass results
  ∧ Failed (printSummary results) =
      Z.of_nat (length results) - tally Pass results
  ∧ AuthFailures (printSummary results) = tally AuthFailure results
  ∧ ConnectFailures (printSummary results) = tally ConnectFailure results
  ∧ ResponseFailures (printSummary results) = tally ResponseFailure results.
Proof.
  unfold printSummary.
  cbn [Total Passed Failed AuthFailures ConnectFailures ResponseFailures].
  pose proof (fold_count_counter Pass results) as Hp.
  pose proof (fold_count_counter AuthFailure results) as Ha.
  pose proof (fold_count_counter ConnectFailure results) as Hc.
  pose proof (fold_count_counter ResponseFailure results) as Hr.
  cbn [counter] in Hp, Ha, Hc, Hr.
  rewrite Hp, Ha, Hc, Hr. cbn. repeat split; lia.
Qed.

(** All outcomes pass exactly when the passed ones are as many as all. *)
Lemma tally_Pass_all (results : list TestResult) :
  tally Pass results = Z.of_nat (length results)
  ↔ Forall (λ r, Success r = true) results.
Proof.
  unfold tally. induction results as [|r results IH].
  - split; [constructor|done].
  - rewrite filter_cons, Forall_cons.
    pose proof (length_filter (λ r, bucketOf r = Pass) results) as Hle.
    assert (bucketOf r = Pass ↔ Success r = true) as Hr.
    { unfold bucketOf.
      destruct (Success r), (AuthSuccess r), (ConnectSuccess r); by cbn. }
    destruct (decide (bucketOf r = Pass)) as [Hp|Hp]; cbn [length].
    + rewrite <-IH. apply Hr in Hp. split; [|lia]. intros ?. split; [done|lia].
    + split; [lia|]. intros [Hs _]. by apply Hr in Hs.
Qed.

(** X13.  In every summary the counts are in range: none is negative,
    the passed outcomes are at most the total, and each failure bucket
    is at most the number of failed outcomes. *)
Theorem printSummary_bounds (results : list TestResult) :
  let sm := printSummary results in
  0 ≤ Passed sm ≤ Total sm
  ∧ 0 ≤ Failed sm ≤ Total sm
  ∧ 0 ≤ AuthFailures sm ≤ Failed sm
  ∧ 0 ≤ ConnectFailures sm ≤ Failed sm
  ∧ 0 ≤ ResponseFailures sm ≤ Failed sm.
Proof.
  cbv zeta.
  destruct (printSummary_counts results) as (-> & -> & -> & -> & -> & ->).
  pose proof (tally_total results).
  pose proof (tally_nonneg Pass results).
  pose proof (tally_nonneg AuthFailure results).
  pose proof (tally_nonneg ConnectFailure results).
  pose proof (tally_nonneg ResponseFailure results).
  lia.
Qed.

(** X14.  [hasFailures] and [printSummary] agree: the one reports a
    failure exactly when the other counts at least one failed outcome, so
    the exit status of a run never contradicts its summary. *)
Theorem hasFailures_iff_Failed_positive (results : list TestResult) :
  hasFailures results = true ↔ 0 < Failed (printSummary results).
Proof.
  destruct (printSummary_counts results) as (_ & _ & -> & _).
  pose proof (tally_Pass_all results) as Hall.
  rewrite <-hasFailures_false_iff in Hall.
  pose proof (tally_total results).
  pose proof (tally_nonneg AuthFailure results).
  pose proof (tally_nonneg ConnectFailure results).
  pose proof (tally_nonneg ResponseFailure results).
  destruct (hasFailures results).
  - split; [intros _|done].
    destruct (decide (tally Pass results = Z.of_nat (length results)))
      as [Heq|Hne]; [|lia].
    by apply Hall in Heq.
  - split; [done|]. intros Hpos.
    assert (tally Pass results = Z.of_nat (length results)) by by apply Hall.
    lia.
Qed.

(** X15.  The summary of two lists of outcomes put end to end is the sum
    of their summaries, count by count. *)
Theorem printSummary_app (rs1 rs2 : list TestResult) :
  let sm := printSummary (rs1 ++ rs2) in
  let sm1 := printSummary rs1 in
  let sm2 := printSummary rs2 in
  Total sm = Total sm1 + Total sm2
  ∧ Passed sm = Passed sm1 + Passed sm2
  ∧ Failed sm = Failed sm1 + Failed sm2
  ∧ AuthFailures sm = AuthFailures sm1 + AuthFailures sm2
  ∧ ConnectFailures sm = ConnectFailures sm1 + ConnectFailures sm2
  ∧ ResponseFailures sm = ResponseFailures sm1 + ResponseFailures sm2.
Proof.
  cbv zeta.
  destruct (printSummary_counts (rs1 ++ rs2)) as (-> & -> & -> & -> & -> & ->).
  destruct (printSummary_counts rs1) as (-> & -> & -> & -> & -> & ->).
  destruct (printSummary_counts rs2) as (-> & -> & -> & -> & -> & ->).
  rewrite !tally_app, length_app. lia.
Qed.

(** ** The console *)

Lemma string_length_append (a b : string) :
  String.length (a +:+ b) = (String.length a + String.length b)%nat.
Proof.
  induction a as [|x a IH]; [done|].
  change (S (String.length (a +:+ b))
          = S (String.length a + String.length b)).
  by rewrite IH.
Qed.

(** The loop of [repeat] appends to what it was given. *)
Lemma repeat_loop_result (fuel : nat) (s : string) : ∀ result,
  repeat_loop fuel result s = result +:+ repeat_loop fuel EmptyString s.
Proof.
  induction fuel as [|fuel IH]; intros result; cbn [repeat_loop].
  - clear. induction result as [|x result IH]; [done|].
    change (String x result = String x (result +:+ EmptyString)).
    by rewrite <-IH.
  - rewrite (IH (result +:+ s)), (IH (EmptyString +:+ s)).
    by rewrite !string_append_assoc.
Qed.

Lemma repeat_loop_add (m n : nat) (s : string) :
  repeat_loop (m + n) EmptyString s
  = repeat_loop m EmptyString s +:+ repeat_loop n EmptyString s.
Proof.
  induction m as [|m IH]; [done|].
  cbn [Nat.add repeat_loop].
  rewrite (repeat_loop_result (m + n)), (repeat_loop_result m), IH.
  by rewrite !string_append_assoc.
Qed.

(** X16.  [repeat(s, n)] is as long as [n] copies of [s]; for an [n] that
    is zero or negative it is the empty string. *)
Theorem repeat_length (s : string) (n : Z) :
  String.length (repeat s n) = (Z.to_nat n * String.length s)%nat
  ∧ (n ≤ 0 → repeat s n = EmptyString).
Proof.
  unfold repeat. split.
  - induction (Z.to_nat n) as [|k IH]; [done|].
    cbn [repeat_loop]. change (EmptyString +:+ s) with s.
    rewrite repeat_loop_result, string_length_append, IH. lia.
  - intros Hn. by replace (Z.to_nat n) with 0%nat by lia.
Qed.

(** X17.  Repeating a string [m + n] times is repeating it [m] times and
    then [n] times, for counts that are not negative. *)
Theorem repeat_add (s : string) (m n : Z) :
  0 ≤ m → 0 ≤ n →
  repeat s (m + n) = repeat s m +:+ repeat s n.
Proof.
  intros Hm Hn. unfold repeat.
  rewrite Z2Nat.inj_add by done. apply repeat_loop_add.
Qed.

(** One dash and then two are three. *)
Lemma repeat_add_witness :
  repeat "-" (1 + 2) = repeat "-" 1 +:+ repeat "-" 2.
Proof. apply repeat_add; lia. Defined.

Section console_facts.
Context `{Runtime} `{!http.Checker} `{!Formatter}.
Context {P C : Type} `{!auth.TokenProvider P} `{!client.HTTPClient C}.
Implicit Types (e : config.Endpoint) (tp : P) (api : client.APIClient C).
Implicit Types (s : State) (verbose : bool).

(** X18.  For an outcome of [testEndpoint], the lines of
    [printTestResult] follow the bucket the summary counts it in: one
    line for a pass; for a failure the message and the stages, where the
    line of the response status appears for a response failure only and a
    passed connectivity is never shown beside a failed authentication. *)
Theorem printTestResult_follows_bucket e tp api verbose s :
  let r := (testEndpoint e tp api verbose s).1 in
  let failure :=
    "    ✗ FAIL - " +:+ ErrorMessage r +:+ " (Duration: "
    +:+ fmt_Duration (Duration r) +:+ ")" in
  printTestResult r =
  match bucketOf r with
  | Pass =>
      ["    ✓ PASS - All checks passed (Duration: "
       +:+ fmt_Duration (Duration r) +:+ ")"]
  | AuthFailure =>
      [failure; "      • Authentication: FAILED";
       "      • Connectivity: FAILED"]
  | ConnectFailure =>
      [failure; "      • Authentication: PASSED";
       "      • Connectivity: FAILED"]
  | ResponseFailure =>
      [failure; "      • Authentication: PASSED";
       "      • Connectivity: PASSED";
       "      • Response Status: FAILED (Status Code: "
       +:+ fmt_d (StatusCode r) +:+ ")"]
  end.
Proof.
  cbv zeta.
  destruct (testEndpoint_shape e tp api verbose s)
    as [(err & d & ->)|[(err & d & ->)|(code & d & ->)]];
    unfold printTestResult, bucketOf; cbn; try done.
  by destruct ((200 <=? code) && (code <? 300)).
Qed.
End console_facts.

(** ** The requests of a run *)

Section request_facts.
Context `{Runtime} `{!http.Checker}.


End request_facts.

Section run_request_facts.
Context `{Runtime} `{!http.Checker} `{!http.Network}.
Context `{!config.Loader} `{!auth.Azidentity}.

End run_request_facts.


(** ** The answer of the server *)

Section answer_facts.
Context `{Runtime} `{!http.Checker} {C : Type} `{!client.HTTPClient C}.

(** X20.  [CallAPI] does not judge the answer: when the HTTP client
    answers the request and the body can be read, [CallAPI] returns the
    status code, the headers and the body of the answer as they are,
    whatever the status code; [IsSuccessStatusCode] and
    [GetBodyAsString] then speak of that very answer. *)
Theorem CallAPI_returns_answer (c : client.APIClient C)
    (method url accessToken : string)
    (requestBody : option (gmap string Value)) (s : State)
    (req : http.Request) (resp : http.Response) (answer : bytes) :
  calls (client.CallAPI c method url accessToken requestBody s).2
    = calls s ++ [EvDo req] →
  (client.Do (client.httpClient c) req (world s)).1 = inl resp →
  http.Body resp = inl answer →
  ∃ response,
    (client.CallAPI c method url accessToken requestBody s).1 = inl response
    ∧ client.StatusCode response = http.StatusCode resp
    ∧ client.Headers response = http.RespHeader resp
    ∧ client.Body response = answer
    ∧ client.GetBodyAsString response = string_of_list_byte answer
    ∧ (client.IsSuccessStatusCode response = true
       ↔ 200 ≤ http.StatusCode resp < 300).
Proof.
  intros Hlog Hdo Hread.
  destruct (CallAPI_logged_request c method url accessToken requestBody s req
              Hlog) as (bodyReader & Hbody & Hreq).
  rewrite CallAPI_eq, Hbody, Hreq.
  destruct (client.Do (client.httpClient c) req (world s)) as [answered w].
  cbn [fst] in Hdo. subst answered. rewrite Hread. cbn [fst].
  eexists. split; [reflexivity|]. cbn.
  repeat split; try done; unfold client.IsSuccessStatusCode in *; cbn in *;
    lia.
Qed.
End answer_facts.

(** A server that answers 404 is answered for. *)
Lemma CallAPI_returns_answer_witness :
  ∃ response,
    (client.CallAPI (H := fixture.runtime) (H0 := fixture.checker)
       (fixture.apiClient 404) "GET" "https://api.example.com/items"
       "test-token" None fixture.start).1 = inl response
    ∧ client.StatusCode response = 404
    ∧ client.Headers response = ∅
    ∧ client.Body response = []
    ∧ client.GetBodyAsString response = string_of_list_byte []
    ∧ (client.IsSuccessStatusCode response = true ↔ 200 ≤ 404 < 300).
Proof.
  refine (CallAPI_returns_answer (H := fixture.runtime)
            (H0 := fixture.checker) (fixture.apiClient 404) "GET"
            "https://api.example.com/items" "test-token" None fixture.start
            {| http.ReqMethod := "GET";
               http.ReqURL := "https://api.example.com/items";
               http.ReqHeader :=
                 http.Header_Set ∅ "Authorization" ("Bearer " +:+ "test-token");
               http.ReqBody := None |}
            {| http.StatusCode := 404; http.RespHeader := ∅;
               http.Body := inl [] |} [] _ _ _).
  - reflexivity.
  - reflexivity.
  - reflexivity.
Defined.
